(** * Main.py: the LLM-only insurance agent service, embedded and verified

    A shallow embedding of the Flask handlers of [src/Main.py] together with
    the SQLite tables they write, and the properties of the service's
    specification stated and settled against that embedding.

    Conventions.
    - A decoded JSON document / Python value reachable from [json.loads] is a
      [json] tree; objects are association lists in insertion order, as
      Python's [dict] is.
    - A Python [str] is kept as the bytes of its UTF-8 encoding.  A surrogate
      code point (U+D800 to U+DFFF: [json.loads] yields one from an escape
      such as [\ud800]) has no UTF-8 encoding; it is kept as the three bytes
      ED A0..BF 80..BF, and [has_surrogate] finds it.
    - Handlers are computations in [M]: they read and write a [world] (the
      SQLite file, the process configuration, the counters of the external
      generators) and either return a value or raise a Python exception.
      What a handler committed before it raised stays committed.
    - Everything the service only calls and does not define ([json.dumps],
      [json.loads], [uuid.uuid4], [datetime.utcnow], the chat-completion API,
      [repr], SQLite's REAL-to-TEXT cast) is a field of the [Runtime] class.
    - The database is the one left by [init_db]: both tables exist. *)

From Stdlib Require Import ZArith String Ascii List Bool Lia DecimalString.
Import ListNotations.
Local Open Scope string_scope.
Local Open Scope Z_scope.

(* ===================================================================== *)
(** ** Python values *)
(* ===================================================================== *)

(** A Python [float] is an IEEE-754 binary64; it is kept as its 64-bit
    pattern. *)
Definition float := Z.

Definition float_zero : float := 0.
(** [0.5] is [0x3FE0000000000000]. *)
Definition float_half : float := 0x3FE0000000000000.

(** [x == 0.0]: every bit but the sign is clear (so [-0.0] counts). *)
Definition float_is_zero (x : float) : bool :=
  Z.land x (Z.ones 63) =? 0.

#[warnings="-register-all"]
Inductive json : Type :=
| JNull : json
| JBool : bool -> json
| JInt : Z -> json
| JFloat : float -> json
| JStr : string -> json
| JArr : list json -> json
| JObj : list (string * json) -> json.

(** Python truth value ([bool(v)]), as used by [not], [or] and [if]. *)
Definition truthy (v : json) : bool :=
  match v with
  | JNull => false
  | JBool b => b
  | JInt z => negb (z =? 0)
  | JFloat x => negb (float_is_zero x)
  | JStr s => negb (s =? "")%string
  | JArr l => match l with [] => false | _ => true end
  | JObj l => match l with [] => false | _ => true end
  end.

(** [a or b] (both operands already evaluated). *)
Definition py_or (a b : json) : json := if truthy a then a else b.

(** [type(v).__name__] *)
Definition py_type_name (v : json) : string :=
  match v with
  | JNull => "NoneType"
  | JBool _ => "bool"
  | JInt _ => "int"
  | JFloat _ => "float"
  | JStr _ => "str"
  | JArr _ => "list"
  | JObj _ => "dict"
  end.

(** [s.encode("utf-8")] would raise: some code point of [s] is a surrogate.
    In the bytes of a string the byte ED starts a three-byte sequence, and
    that sequence is a surrogate exactly when its second byte is A0 or
    above. *)
Fixpoint has_surrogate (s : string) : bool :=
  match s with
  | String c r =>
      match r with
      | String d _ =>
          ((nat_of_ascii c =? 0xED)%nat && (0xA0 <=? nat_of_ascii d)%nat)
          || has_surrogate r
      | EmptyString => false
      end
  | EmptyString => false
  end.

(** [v == s] for a string literal [s]. *)
Definition py_eq_str (v : json) (s : string) : bool :=
  match v with
  | JStr t => (t =? s)%string
  | _ => false
  end.

(** *** Dictionaries *)

Fixpoint dict_lookup (k : string) (d : list (string * json)) : option json :=
  match d with
  | [] => None
  | (k', v) :: d' => if (k' =? k)%string then Some v else dict_lookup k d'
  end.

(** [d[k] = v]: replaces the value in place, or appends a new key. *)
Fixpoint dict_set (k : string) (v : json) (d : list (string * json))
  : list (string * json) :=
  match d with
  | [] => [(k, v)]
  | (k', v') :: d' =>
      if (k' =? k)%string then (k, v) :: d' else (k', v') :: dict_set k v d'
  end.

(** [del d[k]] (used by the statements only, the service never deletes). *)
Fixpoint dict_remove (k : string) (d : list (string * json))
  : list (string * json) :=
  match d with
  | [] => []
  | (k', v') :: d' =>
      if (k' =? k)%string then dict_remove k d' else (k', v') :: dict_remove k d'
  end.

(** [d.get(k, default)] on a dict. *)
Definition dict_get (d : list (string * json)) (k : string) (default : json)
  : json :=
  match dict_lookup k d with
  | Some v => v
  | None => default
  end.

(* ===================================================================== *)
(** ** Exceptions *)
(* ===================================================================== *)

Record exn : Type := Exn { exn_class : string; exn_msg : string }.

(** [str(e)] *)
Definition str_exn (e : exn) : string := exn_msg e.

Definition dquote : string := String (ascii_of_nat 34) EmptyString.
Definition squote : string := String (ascii_of_nat 39) EmptyString.
Definition nl : string := String (ascii_of_nat 10) EmptyString.

Definition AttributeError (v : json) (attr : string) : exn :=
  Exn "AttributeError"
      (squote ++ py_type_name v ++ squote ++ " object has no attribute "
       ++ squote ++ attr ++ squote).

Definition TypeError (msg : string) : exn := Exn "TypeError" msg.

Definition RuntimeError (msg : string) : exn := Exn "RuntimeError" msg.

(* ===================================================================== *)
(** ** SQLite *)
(* ===================================================================== *)

(** A value of one of SQLite's storage classes the service binds. *)
Inductive sqlval : Type :=
| SNull : sqlval
| SInteger : Z -> sqlval
| SReal : float -> sqlval
| SText : string -> sqlval.

(** Row of [policies].  The eight data columns hold the values the INSERT
    bound; none of them is ever selected, and [policy_number] is only
    compared, with the column's TEXT affinity applied at the comparison. *)
Record policy_row : Type := PolicyRow {
  p_id : string;
  p_policy_number : sqlval;
  p_customer_name : sqlval;
  p_customer_contact : sqlval;
  p_policy_type : sqlval;
  p_insurer_name : sqlval;
  p_expiry_date : sqlval;
  p_premium_amount : sqlval;
  p_no_claim_bonus_percent : sqlval;
  p_eligible_upsells : string;
  p_raw_parse : string;
  p_created_at : string
}.

(** Row of [conversations]. *)
Record conversation_row : Type := ConversationRow {
  c_id : string;
  c_session_id : sqlval;
  c_role : string;
  c_message : sqlval;
  c_created_at : string
}.

(* ===================================================================== *)
(** ** The model API *)
(* ===================================================================== *)

(** One element of the [messages] list.  [content] is whatever Python value
    the handler put there (the request's own field, unchecked). *)
Record message : Type := Message { role : string; content : json }.

(** One invocation of [call_llm]. *)
Record llm_call : Type := LlmCall {
  call_messages : list message;
  call_temperature : float;
  call_max_tokens : Z
}.

(* ===================================================================== *)
(** ** The world and what lies outside the program *)
(* ===================================================================== *)

Record world : Type := World {
  api_key : option string;          (* openai.api_key *)
  MODEL : string;                   (* os.getenv("LLM_MODEL", "gpt-4o-mini") *)
  policies : list policy_row;       (* table policies, in rowid order *)
  conversations : list conversation_row;
  uuid_count : nat;                 (* uuid.uuid4() calls so far *)
  clock_count : nat;                (* datetime.utcnow() calls so far *)
  llm_calls : list llm_call         (* call_llm invocations so far, oldest first *)
}.

Class Runtime : Type := {
  (** [json.dumps] *)
  json_dumps : json -> string;
  (** [json.loads]: the decoded document, or the exception raised *)
  json_loads : string -> exn + json;
  (** [repr]/[str] of a value that is not a [str] *)
  py_repr : json -> string;
  (** SQLite's cast of a REAL to TEXT *)
  real_text : float -> string;
  (** [str(uuid.uuid4())], the n-th one drawn by the process *)
  uuid4 : nat -> string;
  (** [datetime.utcnow().isoformat()], the n-th reading *)
  utcnow : nat -> string;
  (** [openai.ChatCompletion.create(model, messages, temperature,
      max_tokens, n=1)] followed by [resp.choices[0].message["content"]]:
      the answer to the n-th [call_llm] invocation, or the exception *)
  chat_completion : nat -> string -> llm_call -> exn + string
}.

(* ===================================================================== *)
(** ** The monad of handlers: state, with exceptions that keep the state *)
(* ===================================================================== *)

Definition M (A : Type) : Type := world -> (exn + A) * world.

Definition ret {A} (a : A) : M A := fun w => (inr a, w).

Definition raise {A} (e : exn) : M A := fun w => (inl e, w).

Definition bind {A B} (c : M A) (k : A -> M B) : M B :=
  fun w =>
    match c w with
    | (inr a, w') => k a w'
    | (inl e, w') => (inl e, w')
    end.

(** [try: c  except Exception as e: h e] *)
Definition try_except {A} (c : M A) (h : exn -> M A) : M A :=
  fun w =>
    match c w with
    | (inr a, w') => (inr a, w')
    | (inl e, w') => h e w'
    end.

(** Lifting a pure fallible result. *)
Definition lift {A} (r : exn + A) : M A :=
  match r with
  | inl e => raise e
  | inr a => ret a
  end.

Declare Scope py_scope.
Delimit Scope py_scope with py.
Notation "x <- c ;; k" := (bind c (fun x => k))
  (at level 61, c at next level, right associativity) : py_scope.
Notation "c ;;; k" := (bind c (fun _ => k))
  (at level 61, right associativity) : py_scope.
Local Open Scope py_scope.

(* ===================================================================== *)
(** ** Primitive operations *)
(* ===================================================================== *)

Section Service.

Context {RT : Runtime}.

(** [d.get(k, default)]; raises on anything that is not a dict. *)
Definition py_get (d : json) (k : string) (default : json) : M json :=
  match d with
  | JObj kvs => ret (dict_get kvs k default)
  | _ => raise (AttributeError d "get")
  end.

(** [d[k] = v] *)
Definition py_setitem (d : json) (k : string) (v : json) : M json :=
  match d with
  | JObj kvs => ret (JObj (dict_set k v kvs))
  | JArr _ => raise (TypeError "list indices must be integers or slices, not str")
  | _ => raise (TypeError (squote ++ py_type_name d ++ squote
                           ++ " object does not support item assignment"))
  end.

(** [prefix + v] where [prefix] is a [str]: a [str] result, or TypeError. *)
Definition py_str_add (prefix : string) (v : json) : M string :=
  match v with
  | JStr s => ret (prefix ++ s)
  | _ => raise (TypeError ("can only concatenate str (not " ++ dquote
                           ++ py_type_name v ++ dquote ++ ") to str"))
  end.

(** [f"{v}"] *)
Definition py_format (v : json) : string :=
  match v with
  | JStr s => s
  | _ => py_repr v
  end.

(** [str(uuid.uuid4())] *)
Definition uuid4_str : M string :=
  fun w =>
    (inr (uuid4 (uuid_count w)),
     World (api_key w) (MODEL w) (policies w) (conversations w)
           (S (uuid_count w)) (clock_count w) (llm_calls w)).

(** [datetime.utcnow().isoformat()] *)
Definition utcnow_isoformat : M string :=
  fun w =>
    (inr (utcnow (clock_count w)),
     World (api_key w) (MODEL w) (policies w) (conversations w)
           (uuid_count w) (S (clock_count w)) (llm_calls w)).

(** *** sqlite3 *)

Definition float_is_nan (x : float) : bool :=
  (Z.land (Z.shiftr x 52) 0x7FF =? 0x7FF) && negb (Z.land x (Z.ones 52) =? 0).

Definition decimal (z : Z) : string := NilEmpty.string_of_int (Z.to_int z).

(** Binding the [i]-th parameter of a statement: [None], [int] (and [bool]),
    [float] and [str] are adapted; a list or a dict is refused (with the
    class and the text of Python up to 3.10; later versions raise
    ProgrammingError), and so are an [int] outside 64 bits and a [str] that
    holds a surrogate, which cannot be encoded (Python's message also names
    the character and its position).  A NaN is stored as NULL. *)
Definition sqlite_bind (i : nat) (v : json) : exn + sqlval :=
  match v with
  | JNull => inr SNull
  | JBool b => inr (SInteger (if b then 1 else 0))
  | JInt z =>
      if (- 2 ^ 63 <=? z) && (z <? 2 ^ 63) then inr (SInteger z)
      else inl (Exn "OverflowError"
                    "Python int too large to convert to SQLite INTEGER")
  | JFloat x => inr (if float_is_nan x then SNull else SReal x)
  | JStr s =>
      if has_surrogate s
      then inl (Exn "UnicodeEncodeError"
                    "'utf-8' codec can't encode character: surrogates not allowed")
      else inr (SText s)
  | JArr _ | JObj _ =>
      inl (Exn "InterfaceError"
               ("Error binding parameter " ++ decimal (Z.of_nat i)
                ++ " - probably unsupported type."))
  end.

(** TEXT affinity: a numeric value becomes its text. *)
Definition text_affinity (v : sqlval) : sqlval :=
  match v with
  | SInteger z => SText (decimal z)
  | SReal x => SText (real_text x)
  | _ => v
  end.

(** [policy_number = ?] on the TEXT column: NULL equals nothing. *)
Definition sql_eq_text (col param : sqlval) : bool :=
  match text_affinity col, text_affinity param with
  | SText a, SText b => (a =? b)%string
  | _, _ => false
  end.

(** [INSERT INTO policies ...] then [commit]; [id] is the PRIMARY KEY. *)
Definition insert_policy (r : policy_row) : M unit :=
  fun w =>
    if existsb (fun r' => (p_id r' =? p_id r)%string) (policies w)
    then (inl (Exn "IntegrityError" "UNIQUE constraint failed: policies.id"), w)
    else (inr tt,
          World (api_key w) (MODEL w) (policies w ++ [r]) (conversations w)
                (uuid_count w) (clock_count w) (llm_calls w)).

(** [INSERT INTO conversations ...] then [commit]. *)
Definition insert_conversation (r : conversation_row) : M unit :=
  fun w =>
    if existsb (fun r' => (c_id r' =? c_id r)%string) (conversations w)
    then (inl (Exn "IntegrityError"
                   "UNIQUE constraint failed: conversations.id"), w)
    else (inr tt,
          World (api_key w) (MODEL w) (policies w) (conversations w ++ [r])
                (uuid_count w) (clock_count w) (llm_calls w)).

(** [SELECT raw_parse FROM policies WHERE policy_number = ?] followed by
    [fetchone()]: the first matching row in rowid order. *)
Definition select_raw_parse (param : sqlval) : M (option string) :=
  fun w =>
    (inr (option_map p_raw_parse
            (find (fun r => sql_eq_text (p_policy_number r) param) (policies w))),
     w).

(* ===================================================================== *)
(** ** DB utilities (Main.py 71-117) *)
(* ===================================================================== *)

Definition save_policy (parsed_obj : json) : M string :=
  pid <- uuid4_str ;;
  policy_number <- py_get parsed_obj "policy_number" JNull ;;
  customer_name <- py_get parsed_obj "customer_name" JNull ;;
  customer_contact <- py_get parsed_obj "customer_contact" JNull ;;
  policy_type <- py_get parsed_obj "policy_type" JNull ;;
  insurer_name <- py_get parsed_obj "insurer_name" JNull ;;
  expiry_date <- py_get parsed_obj "expiry_date" JNull ;;
  premium_amount <- py_get parsed_obj "premium_amount" JNull ;;
  no_claim_bonus_percent <- py_get parsed_obj "no_claim_bonus_percent" JNull ;;
  eligible_upsell <- py_get parsed_obj "eligible_upsell" JNull ;;
  let upsells := json_dumps (py_or eligible_upsell (JArr [])) in
  let raw := json_dumps parsed_obj in
  now <- utcnow_isoformat ;;
  b1 <- lift (sqlite_bind 1 policy_number) ;;
  b2 <- lift (sqlite_bind 2 customer_name) ;;
  b3 <- lift (sqlite_bind 3 customer_contact) ;;
  b4 <- lift (sqlite_bind 4 policy_type) ;;
  b5 <- lift (sqlite_bind 5 insurer_name) ;;
  b6 <- lift (sqlite_bind 6 expiry_date) ;;
  b7 <- lift (sqlite_bind 7 premium_amount) ;;
  b8 <- lift (sqlite_bind 8 no_claim_bonus_percent) ;;
  insert_policy (PolicyRow pid b1 b2 b3 b4 b5 b6 b7 b8 upsells raw now) ;;;
  ret pid.

Definition get_policy_by_number (policy_number : json) : M json :=
  param <- lift (sqlite_bind 0 policy_number) ;;
  row <- select_raw_parse param ;;
  match row with
  | Some raw => lift (json_loads raw)
  | None => ret JNull
  end.

Definition log_conversation (session_id : json) (role : string) (message : json)
  : M unit :=
  cid <- uuid4_str ;;
  now <- utcnow_isoformat ;;
  b1 <- lift (sqlite_bind 1 session_id) ;;
  b3 <- lift (sqlite_bind 3 message) ;;
  insert_conversation (ConversationRow cid b1 role b3 now).

(* ===================================================================== *)
(** ** LLM helper (Main.py 123-136) *)
(* ===================================================================== *)

Definition call_llm (messages : list message) (temperature : float)
           (max_tokens : Z) : M string :=
  fun w =>
    let c := LlmCall messages temperature max_tokens in
    let w' := World (api_key w) (MODEL w) (policies w) (conversations w)
                    (uuid_count w) (clock_count w) (llm_calls w ++ [c]) in
    match api_key w with
    | None => (inl (RuntimeError "OPENAI_API_KEY not set in environment."), w')
    | Some _ =>
        (chat_completion (length (llm_calls w)) (MODEL w) c, w')
    end.

(** The two statements every [try] block of the endpoints is made of:
    [out = call_llm(messages, temperature=0.0, max_tokens=...)] and
    [json.loads(out)]. *)
Definition llm_json (messages : list message) (max_tokens : Z) : M json :=
  out <- call_llm messages float_zero max_tokens ;;
  lift (json_loads out).

End Service.

(* ===================================================================== *)
(** ** Prompt templates (Main.py 142-190) *)
(* ===================================================================== *)

Definition SYSTEM_PARSER_PROMPT : string :=
  String.concat nl
    [ "";
      "You are a professional insurance document parser. Input is either raw text extracted from a policy PDF or a description. Output MUST be a strict JSON object only (no explanatory text) with these fields:";
      "- policy_number (string or null)";
      "- policy_type (string or null)";
      "- insurer_name (string or null)";
      "- customer_name (string or null)";
      "- customer_contact (string or null, E.164 if possible)";
      "- expiry_date (YYYY-MM-DD or null)";
      "- premium_amount (number or null)";
      "- no_claim_bonus_percent (number between 0-100 or null)";
      "- asset_details (object with keys: make, model, year, registration_number - any can be null)";
      "- coverage_summary (array of strings)";
      "- eligible_upsell (array of strings)";
      "- last_payment_date (YYYY-MM-DD or null)";
      "";
      "If value is not present in the text, set it to null or an empty array/object as appropriate.";
      "Make a best-effort extraction. STRICT JSON output and nothing else.";
      "" ].

Definition SYSTEM_NLU_PROMPT : string :=
  String.concat nl
    [ "";
      "You are a compact NLU assistant. Given user text, return a JSON with:";
      "- intent: one of [renew_now, renew_later_date, needs_discount, needs_human_agent, modify_policy, interested_in_upsell, switching_to_competitor, not_interested, callback_request, out_of_scope]";
      "- confidence: 0.0 - 1.0";
      "- entities: dict of any extracted slots (policy_number, followup_date, preferred_channel, language, upsell_choice, payment_method, contact)";
      "Return only JSON, nothing else.";
      "" ].

Definition SYSTEM_SENTIMENT_PROMPT : string :=
  String.concat nl
    [ "";
      "You are a sentiment classifier. Input: a short user utterance. Return JSON:";
      "- sentiment: one of [positive, neutral, negative]";
      "- score: 0.0 - 1.0 (confidence)";
      "Return only JSON.";
      "" ].

Definition SYSTEM_AGENT_POLICY : string :=
  String.concat nl
    [ "";
      "You are an Insurance Renewal & Upsell virtual agent. Behavior rules:";
      "1. Always confirm customer identity (customer_name and policy_number) if not confirmed.";
      "2. If expiry_date within 30 days, proactively offer renewal. Show premium and NCB.";
      "3. Check eligible_upsell and propose simple, short add-ons if sentiment positive and user willing.";
      "4. If user requests payment, call payment initiation (return payment_link).";
      "5. Keep messages short, empathetic, and in the user's preferred language (English/Hindi). If language not provided, default English.";
      "6. Respect opt-out and DND: if user says 'stop' or 'unsubscribe', log opt-out and confirm.";
      "7. Output must be a JSON object with keys:";
      "   - reply (string): text to send to the user";
      "   - language (string): 'en' or 'hi'";
      "   - action (string or null): one of [ask_for_missing_info, offer_renewal, initiate_payment, upsell_offer, schedule_callback, escalate_human, none]";
      "   - action_payload (object or null): additional instructions (e.g., payment_link, amount, followup_date)";
      "Return only JSON.";
      "" ].

(* ===================================================================== *)
(** ** Endpoints (Main.py 196-398) *)
(* ===================================================================== *)

(** What a view function returns: a status and a JSON body.  A view that
    raises instead leaves the exception to Flask (an HTTP 500 page). *)
Record response : Type := Response { status : Z; body : json }.

(** [jsonify(v)] *)
Definition jsonify (v : json) : response := Response 200 v.

(** [jsonify(v), code] *)
Definition jsonify_with (v : json) (code : Z) : response := Response code v.

Section Endpoints.

Context {RT : Runtime}.

(** [a or b] with [b] evaluated only when [a] is falsy. *)
Definition py_or_else (a : json) (b : M json) : M json :=
  if truthy a then ret a else b.

(** *** POST /v1/policy/parse *)

(** The messages of lines 207-208, and of lines 216-219. *)
Definition parser_messages (user_content : json) : list message :=
  [Message "system" (JStr SYSTEM_PARSER_PROMPT);
   Message "user" user_content].

(** The constant part of the retry message of line 218, up to the text. *)
Definition retry_prefix (e : exn) : string :=
  "Please re-output ONLY the JSON object. Previous attempt error: "
  ++ str_exn e ++ nl ++ nl ++ "Original text:" ++ nl.

(** Lines 207-223: the first attempt and the corrective second one.  The
    result is the parsed document, or the 500 response of the inner
    [except]. *)
Definition extract_policy (text : json) : M (response + json) :=
  try_except
    (parsed <- llm_json (parser_messages text) 600 ;;
     ret (inr parsed))
    (fun e =>
       try_except
         (retry_content <- py_str_add (retry_prefix e) text ;;
          parsed <- llm_json (parser_messages (JStr retry_content)) 600 ;;
          ret (inr parsed))
         (fun e2 =>
            ret (inl (jsonify_with
                        (JObj [("error", JStr "LLM parsing failed");
                               ("details", JStr (str_exn e2))]) 500)))).

Definition parse_policy (request_json : json) : M response :=
  let body := py_or request_json (JObj []) in
  t <- py_get body "text" JNull ;;
  text <- py_or_else t (f <- py_get body "file_url" JNull ;;
                        py_or_else f (ret (JStr ""))) ;;
  if negb (truthy text) then
    ret (jsonify_with
           (JObj [("error",
                   JStr "Provide 'text' (extracted PDF text) or 'file_url' (text).")])
           400)
  else
    r <- extract_policy text ;;
    match r with
    | inl resp => ret resp
    | inr parsed =>
        pid <- save_policy parsed ;;
        parsed' <- py_setitem parsed "_db_id" (JStr pid) ;;
        ret (jsonify parsed')
    end.

(** *** POST /v1/nlp/intent *)

Definition nlu_intent (request_json : json) : M response :=
  let body := py_or request_json (JObj []) in
  text <- py_get body "text" (JStr "") ;;
  if negb (truthy text) then
    ret (jsonify_with (JObj [("error", JStr "text required")]) 400)
  else
    let messages := [Message "system" (JStr SYSTEM_NLU_PROMPT);
                     Message "user" text] in
    r <- try_except
           (parsed <- llm_json messages 200 ;;
            ret (inr parsed))
           (fun e =>
              ret (inl (jsonify_with
                          (JObj [("error", JStr "NLU LLM error");
                                 ("details", JStr (str_exn e))]) 500))) ;;
    match r with
    | inl resp => ret resp
    | inr parsed => ret (jsonify parsed)
    end.

(** *** POST /v1/nlp/sentiment *)

Definition nlu_sentiment (request_json : json) : M response :=
  let body := py_or request_json (JObj []) in
  text <- py_get body "text" (JStr "") ;;
  if negb (truthy text) then
    ret (jsonify_with (JObj [("error", JStr "text required")]) 400)
  else
    let messages := [Message "system" (JStr SYSTEM_SENTIMENT_PROMPT);
                     Message "user" text] in
    r <- try_except
           (parsed <- llm_json messages 100 ;;
            ret (inr parsed))
           (fun e =>
              ret (inl (jsonify_with
                          (JObj [("error", JStr "Sentiment LLM error");
                                 ("details", JStr (str_exn e))]) 500))) ;;
    match r with
    | inl resp => ret resp
    | inr parsed => ret (jsonify parsed)
    end.

(** *** POST /v1/agent/message *)

Definition default_nlu : json :=
  JObj [("intent", JStr "out_of_scope");
        ("confidence", JFloat float_half);
        ("entities", JObj [])].

Definition default_sent : json :=
  JObj [("sentiment", JStr "neutral"); ("score", JFloat float_half)].

(** Lines 304-308: the [try] body of the intent step. *)
Definition intent_attempt (user_text : json) : M json :=
  llm_json [Message "system" (JStr SYSTEM_NLU_PROMPT);
            Message "user" user_text] 200.

(** Lines 302-310. *)
Definition intent_or_default (user_text : json) : M json :=
  try_except (intent_attempt user_text) (fun _ => ret default_nlu).

(** Lines 314-318: the [try] body of the sentiment step. *)
Definition sentiment_attempt (user_text : json) : M json :=
  llm_json [Message "system" (JStr SYSTEM_SENTIMENT_PROMPT);
            Message "user" user_text] 80.

(** Lines 312-320. *)
Definition sentiment_or_default (user_text : json) : M json :=
  try_except (sentiment_attempt user_text) (fun _ => ret default_sent).

(** Lines 323-335: the f-string. *)
Definition agent_user_prompt (user_text : json) (policy_context : string)
           (nlu sent language : json) : string :=
  nl ++ "User message: " ++ py_format user_text
  ++ nl ++ "Policy context: " ++ policy_context
  ++ nl ++ "NLU: " ++ json_dumps nlu
  ++ nl ++ "Sentiment: " ++ json_dumps sent
  ++ nl ++ "Preferred language: " ++ py_format language
  ++ nl
  ++ nl ++ "Following the agent behavior rules, produce the agent response JSON exactly with keys:"
  ++ nl ++ "reply, language ('en' or 'hi'), action (ask_for_missing_info | offer_renewal | initiate_payment | upsell_offer | schedule_callback | escalate_human | none), action_payload (object|null)."
  ++ nl
  ++ nl ++ "Keep reply short and polite. If asking for missing info, be specific about which field is missing (e.g., policy_number or customer_contact). If offering renewal, include premium and expiry_date. If initiating payment, include payment link."
  ++ nl ++ "    ".

Definition fallback_reply : string :=
  "I'm sorry, I'm having trouble right now. I'll escalate to a human agent.".

(** The object of the [except] branch, lines 346-351. *)
Definition fallback_decision (language : json) (e : exn) : json :=
  JObj [("reply", JStr fallback_reply);
        ("language", language);
        ("action", JStr "escalate_human");
        ("action_payload", JObj [("reason", JStr (str_exn e))])].

(** Lines 337-343: the [try] body of the decision step. *)
Definition agent_attempt (prompt : string) : M json :=
  llm_json [Message "system" (JStr SYSTEM_AGENT_POLICY);
            Message "user" (JStr prompt)] 400.

(** Lines 336-351. *)
Definition agent_decision (language : json) (prompt : string) : M json :=
  try_except (agent_attempt prompt)
             (fun e => ret (fallback_decision language e)).

(** Lines 353-359. *)
Definition resolve_payment (policy agent_json : json) : M json :=
  action <- py_get agent_json "action" JNull ;;
  if py_eq_str action "initiate_payment" then
    ap <- py_get agent_json "action_payload" JNull ;;
    let payload := py_or ap (JObj []) in
    a <- py_get payload "amount" JNull ;;
    amount <- py_or_else a (if truthy policy
                            then py_get policy "premium_amount" JNull
                            else ret JNull) ;;
    u <- uuid4_str ;;
    let payment_id := "pay_" ++ substring 0 8 u in
    let payment_link := "https://mockpay.example/pay/" ++ payment_id in
    py_setitem agent_json "action_payload"
               (JObj [("payment_id", JStr payment_id);
                      ("payment_link", JStr payment_link);
                      ("amount", amount)])
  else ret agent_json.

(** Line 323. *)
Definition policy_context (policy : json) : string :=
  if truthy policy then json_dumps policy else "{}".

(** Lines 353-366: what follows the decision. *)
Definition finish_turn (session_id policy agent_json : json) : M response :=
  agent_json <- resolve_payment policy agent_json ;;
  reply <- py_get agent_json "reply" (JStr "") ;;
  log_conversation session_id "agent" reply ;;;
  ret (jsonify agent_json).

(** Lines 302-366: the turn proper, once the request is read, the user
    message logged and the policy looked up. *)
Definition agent_turn (session_id policy language user_text : json)
  : M response :=
  nlu <- intent_or_default user_text ;;
  sent <- sentiment_or_default user_text ;;
  agent_json <- agent_decision language
                  (agent_user_prompt user_text (policy_context policy)
                                     nlu sent language) ;;
  finish_turn session_id policy agent_json.

(** Lines 285-300, then the turn. *)
Definition agent_message (request_json : json) : M response :=
  let body := py_or request_json (JObj []) in
  sid <- py_get body "session_id" JNull ;;
  session_id <- py_or_else sid (u <- uuid4_str ;; ret (JStr u)) ;;
  policy_number <- py_get body "policy_number" JNull ;;
  language <- py_get body "language" (JStr "en") ;;
  user_text <- py_get body "message" (JStr "") ;;
  if negb (truthy user_text) then
    ret (jsonify_with (JObj [("error", JStr "message required")]) 400)
  else
    log_conversation session_id "user" user_text ;;;
    policy <- (if truthy policy_number
               then get_policy_by_number policy_number
               else ret JNull) ;;
    agent_turn session_id policy language user_text.

(** *** POST /v1/payments/initiate *)

Definition payments_initiate (request_json : json) : M response :=
  let body := py_or request_json (JObj []) in
  policy_number <- py_get body "policy_number" JNull ;;
  amount <- py_get body "amount" JNull ;;
  if negb (truthy amount) then
    ret (jsonify_with (JObj [("error", JStr "amount required")]) 400)
  else
    u <- uuid4_str ;;
    let payment_id := "pay_" ++ substring 0 8 u in
    let link := "https://mockpay.example/pay/" ++ payment_id in
    ret (jsonify (JObj [("id", JStr payment_id); ("payment_link", JStr link)])).

(** *** POST /v1/notify/sms *)

Definition notify_sms (request_json : json) : M response :=
  let body := py_or request_json (JObj []) in
  to <- py_get body "to" JNull ;;
  text <- py_get body "text" JNull ;;
  if negb (truthy to) || negb (truthy text) then
    ret (jsonify_with (JObj [("error", JStr "to and text required")]) 400)
  else
    u <- uuid4_str ;;
    ret (jsonify (JObj [("status", JStr "sent");
                        ("id", JStr ("msg_" ++ substring 0 8 u))])).

(** *** GET /health *)

Definition health (_ : json) : M response :=
  now <- utcnow_isoformat ;;
  ret (jsonify (JObj [("status", JStr "ok"); ("time", JStr now)])).

(** *** Routing *)

Inductive endpoint : Type :=
| PolicyParse | NlpIntent | NlpSentiment | AgentMessage
| PaymentsInitiate | NotifySms | Health.

Definition dispatch (ep : endpoint) : json -> M response :=
  match ep with
  | PolicyParse => parse_policy
  | NlpIntent => nlu_intent
  | NlpSentiment => nlu_sentiment
  | AgentMessage => agent_message
  | PaymentsInitiate => payments_initiate
  | NotifySms => notify_sms
  | Health => health
  end.

End Endpoints.

(* ===================================================================== *)
(** ** A simulated runtime *)
(* ===================================================================== *)

(** A concrete [Runtime] on which handlers can be run: a JSON printer and
    reader for the fragment the scenarios use (the four floats [0.0], [0.5],
    [1.0], [NaN]; the escapes of the quote, the backslash and the newline),
    model answers read from a script, and identifiers drawn from a counter. *)
Module Sim.

Local Open Scope string_scope.

Definition dq : ascii := ascii_of_nat 34.
Definition bs : ascii := ascii_of_nat 92.
Definition lf : ascii := ascii_of_nat 10.

Definition float_one : float := 0x3FF0000000000000.
Definition float_nan : float := 0x7FF8000000000000.

Fixpoint escape (s : string) : string :=
  match s with
  | EmptyString => EmptyString
  | String c r =>
      if Ascii.eqb c dq then String bs (String dq (escape r))
      else if Ascii.eqb c bs then String bs (String bs (escape r))
      else if Ascii.eqb c lf then String bs (String "n" (escape r))
      else String c (escape r)
  end.

Definition float_text (x : float) : string :=
  if (x =? float_zero)%Z then "0.0"
  else if (x =? float_half)%Z then "0.5"
  else if (x =? float_one)%Z then "1.0"
  else "NaN".

Fixpoint dumps (v : json) : string :=
  match v with
  | JNull => "null"
  | JBool true => "true"
  | JBool false => "false"
  | JInt z => decimal z
  | JFloat x => float_text x
  | JStr s => dquote ++ escape s ++ dquote
  | JArr l => "[" ++ String.concat ", " (map dumps l) ++ "]"
  | JObj l =>
      "{" ++ String.concat ", "
               (map (fun '(k, x) => dquote ++ escape k ++ dquote ++ ": " ++ dumps x) l)
          ++ "}"
  end.

Definition is_ws (c : ascii) : bool :=
  Ascii.eqb c " " || Ascii.eqb c lf
  || Ascii.eqb c (ascii_of_nat 9) || Ascii.eqb c (ascii_of_nat 13).

Fixpoint skip_ws (s : list ascii) : list ascii :=
  match s with
  | c :: r => if is_ws c then skip_ws r else s
  | [] => []
  end.

(** The characters up to the closing quote, unescaped. *)
Fixpoint read_string (s : list ascii) : option (string * list ascii) :=
  match s with
  | [] => None
  | c :: r =>
      if Ascii.eqb c dq then Some (EmptyString, r)
      else if Ascii.eqb c bs then
        match r with
        | e :: r' =>
            let put x := match read_string r' with
                         | Some (t, rest) => Some (String x t, rest)
                         | None => None
                         end in
            if Ascii.eqb e dq then put dq
            else if Ascii.eqb e bs then put bs
            else if Ascii.eqb e "n" then put lf
            else None
        | [] => None
        end
      else
        match read_string r with
        | Some (t, rest) => Some (String c t, rest)
        | None => None
        end
  end.

Definition digit_of (c : ascii) : option Z :=
  let n := Z.of_nat (nat_of_ascii c) in
  if ((48 <=? n) && (n <=? 57))%Z then Some (n - 48) else None.

(** Leading decimal digits: their value, how many, and the rest. *)
Fixpoint read_digits (acc : Z) (count : nat) (s : list ascii)
  : Z * nat * list ascii :=
  match s with
  | c :: r =>
      match digit_of c with
      | Some d => read_digits (10 * acc + d) (S count) r
      | None => (acc, count, s)
      end
  | [] => (acc, count, [])
  end.

Definition read_number (s : list ascii) : option (json * list ascii) :=
  let '(neg, s1) := match s with
                    | "-"%char :: r => (true, r)
                    | _ => (false, s)
                    end in
  match read_digits 0 0 s1 with
  | (_, O, _) => None
  | (n, _, "."%char :: r) =>
      match read_digits 0 0 r with
      | (f, 1%nat, rest) =>
          if neg then None
          else if ((n =? 0) && (f =? 0))%Z then Some (JFloat float_zero, rest)
          else if ((n =? 0) && (f =? 5))%Z then Some (JFloat float_half, rest)
          else if ((n =? 1) && (f =? 0))%Z then Some (JFloat float_one, rest)
          else None
      | _ => None
      end
  | (n, _, rest) => Some (JInt (if neg then - n else n), rest)
  end.

Fixpoint read_value (fuel : nat) (s : list ascii) {struct fuel}
  : option (json * list ascii) :=
  match fuel with
  | O => None
  | S fuel' =>
      match skip_ws s with
      | "n"%char :: "u"%char :: "l"%char :: "l"%char :: r => Some (JNull, r)
      | "t"%char :: "r"%char :: "u"%char :: "e"%char :: r => Some (JBool true, r)
      | "f"%char :: "a"%char :: "l"%char :: "s"%char :: "e"%char :: r =>
          Some (JBool false, r)
      | "N"%char :: "a"%char :: "N"%char :: r => Some (JFloat float_nan, r)
      | "["%char :: r =>
          match skip_ws r with
          | "]"%char :: r' => Some (JArr [], r')
          | _ =>
              match read_elements fuel' r with
              | Some (l, r') => Some (JArr l, r')
              | None => None
              end
          end
      | "{"%char :: r =>
          match skip_ws r with
          | "}"%char :: r' => Some (JObj [], r')
          | _ =>
              match read_members fuel' r with
              | Some (l, r') => Some (JObj l, r')
              | None => None
              end
          end
      | c :: r =>
          if Ascii.eqb c dq then
            match read_string r with
            | Some (t, r') => Some (JStr t, r')
            | None => None
            end
          else read_number (c :: r)
      | [] => None
      end
  end
with read_elements (fuel : nat) (s : list ascii) {struct fuel}
  : option (list json * list ascii) :=
  match fuel with
  | O => None
  | S fuel' =>
      match read_value fuel' s with
      | Some (v, r) =>
          match skip_ws r with
          | ","%char :: r' =>
              match read_elements fuel' r' with
              | Some (l, r'') => Some (v :: l, r'')
              | None => None
              end
          | "]"%char :: r' => Some ([v], r')
          | _ => None
          end
      | None => None
      end
  end
with read_members (fuel : nat) (s : list ascii) {struct fuel}
  : option (list (string * json) * list ascii) :=
  match fuel with
  | O => None
  | S fuel' =>
      match skip_ws s with
      | c :: r =>
          if Ascii.eqb c dq then
            match read_string r with
            | Some (k, r1) =>
                match skip_ws r1 with
                | ":"%char :: r2 =>
                    match read_value fuel' r2 with
                    | Some (v, r3) =>
                        match skip_ws r3 with
                        | ","%char :: r4 =>
                            match read_members fuel' r4 with
                            | Some (l, r5) =>
                                (* a repeated key keeps its first place
                                   and takes its last value *)
                                match dict_lookup k l with
                                | Some v' => Some ((k, v') :: dict_remove k l, r5)
                                | None => Some ((k, v) :: l, r5)
                                end
                            | None => None
                            end
                        | "}"%char :: r4 => Some ([(k, v)], r4)
                        | _ => None
                        end
                    | None => None
                    end
                | _ => None
                end
            | None => None
            end
          else None
      | [] => None
      end
  end.

Definition loads (s : string) : exn + json :=
  let cs := list_ascii_of_string s in
  match read_value (2 * List.length cs + 2) cs with
  | Some (v, r) =>
      match skip_ws r with
      | [] => inr v
      | _ => inl (Exn "JSONDecodeError" "Extra data")
      end
  | None => inl (Exn "JSONDecodeError" "Expecting value")
  end.

(** The decimal numeral of [n], padded with zeros to [width] characters. *)
Definition padded (width n : nat) : string :=
  let d := decimal (Z.of_nat n) in
  substring 0 (width - String.length d) "000000000000" ++ d.

Definition uuid_of (n : nat) : string :=
  padded 8 n ++ "-0000-4000-8000-000000000000".

Definition time_of (n : nat) : string :=
  "2024-01-01T00:00:00." ++ padded 6 n.

Definition api_error : exn :=
  Exn "APIConnectionError" "Error communicating with OpenAI".

(** The runtime whose n-th [call_llm] is answered by the n-th entry of
    [script] (and by a connection error past its end). *)
Definition runtime (script : list (exn + string)) : Runtime :=
  {| json_dumps := dumps;
     json_loads := loads;
     py_repr := dumps;
     real_text := float_text;
     uuid4 := uuid_of;
     utcnow := time_of;
     chat_completion := fun n _ _ => nth n script (inl api_error) |}.

(** A fresh database, a configured key, no call made yet. *)
Definition world0 : world :=
  World (Some "sk-test") "gpt-4o-mini" [] [] 0 0 [].

End Sim.

(* ===================================================================== *)
(** ** Vocabulary of the specification *)
(* ===================================================================== *)

(** The [_db_id] of a response body. *)
Definition db_id (r : response) : option json :=
  match body r with
  | JObj obj => dict_lookup "_db_id" obj
  | _ => None
  end.

(** [v.get(k)] read off a value that may not be a dict ([None] then). *)
Definition json_get (v : json) (k : string) : json :=
  match v with
  | JObj kvs => dict_get kvs k JNull
  | _ => JNull
  end.

(** [body.get(k, default)] for the [body] of a request (line 285 and the
    like: [request.json or {}]). *)
Definition request_field (req : json) (k : string) (default : json) : json :=
  match py_or req (JObj []) with
  | JObj kvs => dict_get kvs k default
  | _ => default
  end.

(** The text lines 202-203 take from the request:
    [body.get("text") or body.get("file_url") or ""]. *)
Definition request_text (req : json) : json :=
  let body := py_or req (JObj []) in
  py_or (json_get body "text") (py_or (json_get body "file_url") (JStr "")).

(** *** Relations between the world before and the world after *)

(** [moves R c]: whatever the outcome of [c], value or exception, the final
    world is related by [R] to the initial one. *)
Definition moves (R : world -> world -> Prop) {A} (c : M A) : Prop :=
  forall w, R w (snd (c w)).

(** [extends w w']: both tables of [w'] are those of [w] with rows added at
    the end; no row of [w] is changed, dropped or reordered. *)
Definition extends (w w' : world) : Prop :=
  (exists ps, policies w' = (policies w ++ ps)%list) /\
  (exists cs, conversations w' = (conversations w ++ cs)%list).

(** [same_tables w w']: neither table changed at all. *)
Definition same_tables (w w' : world) : Prop :=
  policies w' = policies w /\ conversations w' = conversations w.

(** [same_calls w w']: no [call_llm] was made between [w] and [w'], and
    the configuration of the model API is the same; so any [call_llm] gets
    the same answer in [w'] as in [w]. *)
Definition same_calls (w w' : world) : Prop :=
  llm_calls w' = llm_calls w /\ api_key w' = api_key w /\ MODEL w' = MODEL w.

(** The three invocations of a turn (lines 304-307, 314-317, 337-342). *)
Definition intent_call (user_text : json) : llm_call :=
  LlmCall [Message "system" (JStr SYSTEM_NLU_PROMPT);
           Message "user" user_text] float_zero 200.

Definition sentiment_call (user_text : json) : llm_call :=
  LlmCall [Message "system" (JStr SYSTEM_SENTIMENT_PROMPT);
           Message "user" user_text] float_zero 80.

Definition decision_call (prompt : string) : llm_call :=
  LlmCall [Message "system" (JStr SYSTEM_AGENT_POLICY);
           Message "user" (JStr prompt)] float_zero 400.

(** The error bodies of the three extraction endpoints. *)
Definition error_body (error details : string) : json :=
  JObj [("error", JStr error); ("details", JStr details)].

(** The world after one more [call_llm] invocation. *)
Definition logged (w : world) (c : llm_call) : world :=
  World (api_key w) (MODEL w) (policies w) (conversations w)
        (uuid_count w) (clock_count w) (llm_calls w ++ [c]).

(** The world after one more [uuid.uuid4()]. *)
Definition drawn (w : world) : world :=
  World (api_key w) (MODEL w) (policies w) (conversations w)
        (S (uuid_count w)) (clock_count w) (llm_calls w).

(** The seven actions of the agent decision schema. *)
Definition action_enum : list string :=
  ["ask_for_missing_info"; "offer_renewal"; "initiate_payment";
   "upsell_offer"; "schedule_callback"; "escalate_human"; "none"].

Definition in_action_enum (v : json) : bool :=
  match v with
  | JStr s => existsb (String.eqb s) action_enum
  | _ => false
  end.

(** A body with a string-valued [reply] key and an [action] of the enum. *)
Definition well_formed_decision (v : json) : bool :=
  match v with
  | JObj obj =>
      match dict_lookup "reply" obj, dict_lookup "action" obj with
      | Some (JStr _), Some a => in_action_enum a
      | _, _ => false
      end
  | _ => false
  end.

(** The amount of the payment record as the specification words it: the
    action payload's amount when present, else the policy context's
    premium_amount when a policy context exists, else null. *)
Definition spec_amount (policy decision : json) : json :=
  let from_policy :=
    match policy with
    | JObj p => dict_get p "premium_amount" JNull
    | _ => JNull
    end in
  match json_get decision "action_payload" with
  | JObj payload =>
      match dict_lookup "amount" payload with
      | Some a => a
      | None => from_policy
      end
  | _ => from_policy
  end.

(** The amount line 356 computes, on values on which it does not raise:
    Python's [or] passes over a payload amount that is falsy, and
    [if policy] over a policy context that is. *)
Definition resolved_amount (policy decision : json) : json :=
  py_or (json_get (py_or (json_get decision "action_payload") (JObj [])) "amount")
        (if truthy policy then json_get policy "premium_amount" else JNull).

(** The payment record of line 359 for the uuid [u]. *)
Definition payment_record (u : string) (amount : json) : json :=
  JObj [("payment_id", JStr ("pay_" ++ substring 0 8 u));
        ("payment_link",
         JStr ("https://mockpay.example/pay/" ++ ("pay_" ++ substring 0 8 u)));
        ("amount", amount)].

(* ===================================================================== *)
(** ** Scenarios *)
(* ===================================================================== *)

(** Concrete requests, model answers and worlds, run on [Sim.runtime]. *)
Module Scenario.

Definition not_json : exn + string := inr "Sorry, I cannot help with that.".

Definition says (v : json) : exn + string := inr (Sim.dumps v).

(** *** Parsing a policy *)

Definition policy_doc : list (string * json) :=
  [("policy_number", JStr "POL123");
   ("policy_type", JStr "motor");
   ("insurer_name", JStr "Acme Insurance");
   ("customer_name", JStr "Asha Rao");
   ("customer_contact", JStr "+919800000000");
   ("expiry_date", JStr "2024-01-20");
   ("premium_amount", JInt 1200);
   ("no_claim_bonus_percent", JInt 20);
   ("asset_details", JObj [("make", JStr "Maruti"); ("model", JStr "Swift");
                           ("year", JInt 2019);
                           ("registration_number", JNull)]);
   ("coverage_summary", JArr [JStr "own damage"; JStr "third party"]);
   ("eligible_upsell", JArr [JStr "zero depreciation"]);
   ("last_payment_date", JNull)].

Definition parse_request : json :=
  JObj [("text", JStr "Policy POL123, motor, Acme Insurance, premium 1200")].

(** The model answers the two parse calls with the same document. *)
Definition rt_parse : Runtime := Sim.runtime [says (JObj policy_doc); says (JObj policy_doc)].

Definition parse_run1 := parse_policy (RT := rt_parse) parse_request Sim.world0.
Definition parse_world1 : world := snd parse_run1.
Definition parse_response1 : response :=
  jsonify (JObj (dict_set "_db_id" (JStr (Sim.uuid_of 0)) policy_doc)).

(** The parser's document carries a [_db_id] of its own. *)
Definition own_id_doc : list (string * json) :=
  [("policy_number", JStr "POL777");
   ("_db_id", JStr "mine");
   ("premium_amount", JInt 900)].

Definition rt_own_id : Runtime := Sim.runtime [says (JObj own_id_doc)].

(** The first answer is not JSON, the second one is. *)
Definition rt_retry : Runtime := Sim.runtime [not_json; says (JObj policy_doc)].

(** *** A turn of the agent *)

Definition hello : json := JObj [("message", JStr "hi")].

Definition renewal_decision : json :=
  JObj [("reply", JStr "Your policy expires soon. Renew now?");
        ("language", JStr "en");
        ("action", JStr "offer_renewal");
        ("action_payload", JNull)].

(** Intent and sentiment calls fail, the decision call answers. *)
Definition rt_degraded : Runtime :=
  Sim.runtime [inl Sim.api_error; not_json; says renewal_decision].

(** The decision names an action outside the enum. *)
Definition offbeat_decision : json :=
  JObj [("reply", JStr "Your policy is active.");
        ("language", JStr "en");
        ("action", JStr "check_status");
        ("action_payload", JNull)].

Definition rt_offbeat : Runtime :=
  Sim.runtime [says default_nlu; says default_sent; says offbeat_decision].

(** The decision is valid JSON but not an object. *)
Definition rt_array : Runtime :=
  Sim.runtime [says default_nlu; says default_sent; says (JArr [])].

(** A payment of amount 0. *)
Definition zero_payment_decision : json :=
  JObj [("reply", JStr "Here is your payment link.");
        ("language", JStr "en");
        ("action", JStr "initiate_payment");
        ("action_payload", JObj [("amount", JInt 0)])].

Definition rt_zero_payment : Runtime :=
  Sim.runtime [says default_nlu; says default_sent; says zero_payment_decision].

(** A payment whose amount the model left out, for a stored policy. *)
Definition payment_decision : json :=
  JObj [("reply", JStr "Here is your payment link.");
        ("language", JStr "en");
        ("action", JStr "initiate_payment");
        ("action_payload", JObj [("method", JStr "upi")])].

(** A parse, then a turn about the parsed policy. *)
Definition rt_parse_then_pay : Runtime :=
  Sim.runtime [says (JObj policy_doc);
               says default_nlu; says default_sent; says payment_decision].

Definition pay_request : json :=
  JObj [("session_id", JStr "s1");
        ("policy_number", JStr "POL123");
        ("message", JStr "I want to pay now")].

(** *** The classification endpoints *)

Definition intent_request : json := JObj [("text", JStr "I will renew today")].

(** The first answer is not JSON; a second call would have got one. *)
Definition rt_intent_garbled : Runtime := Sim.runtime [not_json; says default_nlu].

(** *** The stubs *)

Definition pay_500 : json :=
  JObj [("policy_number", JStr "POL123"); ("amount", JInt 500)].
Definition pay_0 : json := JObj [("amount", JInt 0)].

Definition rt_idle : Runtime := Sim.runtime [].

End Scenario.

(* ===================================================================== *)
(** ** Further vocabulary: who writes what, and what is sent to the model *)
(* ===================================================================== *)

(** [same_policies w w']: the table [policies] did not change. *)
Definition same_policies (w w' : world) : Prop := policies w' = policies w.

(** [same_conversations w w']: the table [conversations] did not change. *)
Definition same_conversations (w w' : world) : Prop :=
  conversations w' = conversations w.

(** The system prompts of the file, each with the budgets it is sent with. *)
Definition prompt_budgets : list (string * Z) :=
  [(SYSTEM_PARSER_PROMPT, 600);
   (SYSTEM_NLU_PROMPT, 200);
   (SYSTEM_SENTIMENT_PROMPT, 100);
   (SYSTEM_SENTIMENT_PROMPT, 80);
   (SYSTEM_AGENT_POLICY, 400)].

(** A [call_llm] invocation as the endpoints make them: temperature 0.0, a
    system message holding one of the four templates, one user message, and
    a budget that goes with the template. *)
Definition endpoint_call (c : llm_call) : Prop :=
  call_temperature c = float_zero /\
  exists sys user,
    call_messages c = [Message "system" (JStr sys); Message "user" user] /\
    In (sys, call_max_tokens c) prompt_budgets.

(** [adds_calls n w w']: between [w] and [w'] at most [n] invocations of
    [call_llm] were made, all of them [endpoint_call]s, and the model API's
    configuration did not change. *)
Definition adds_calls (n : nat) (w w' : world) : Prop :=
  exists cs,
    llm_calls w' = (llm_calls w ++ cs)%list /\
    (List.length cs <= n)%nat /\
    Forall endpoint_call cs.

(** [spends n c]: whatever its outcome, [c] makes at most [n] calls. *)
Definition spends (n : nat) {A} (c : M A) : Prop :=
  forall w, adds_calls n w (snd (c w)).

(** The most [call_llm] invocations one request to an endpoint makes. *)
Definition calls_budget (ep : endpoint) : nat :=
  match ep with
  | PolicyParse => 2
  | NlpIntent | NlpSentiment => 1
  | AgentMessage => 3
  | PaymentsInitiate | NotifySms | Health => 0
  end.

(** The JSON values sqlite3 can bind: [None], [bool], a 64-bit [int], a
    [float], a [str] free of surrogates. *)
Definition bindable (v : json) : bool :=
  match v with
  | JNull | JBool _ | JFloat _ => true
  | JInt z => (- 2 ^ 63 <=? z) && (z <? 2 ^ 63)
  | JStr s => negb (has_surrogate s)
  | JArr _ | JObj _ => false
  end.


(** The value sqlite3 binds for a bindable JSON value. *)
Definition bound (v : json) : sqlval :=
  match v with
  | JBool b => SInteger (if b then 1 else 0)
  | JInt z => SInteger z
  | JFloat x => if float_is_nan x then SNull else SReal x
  | JStr s => SText s
  | _ => SNull
  end.

(** The world after one more [datetime.utcnow()]. *)
Definition ticked (w : world) : world :=
  World (api_key w) (MODEL w) (policies w) (conversations w)
        (uuid_count w) (S (clock_count w)) (llm_calls w).

(** The world with one more row in [conversations]. *)
Definition with_turn (w : world) (r : conversation_row) : world :=
  World (api_key w) (MODEL w) (policies w) (conversations w ++ [r])
        (uuid_count w) (clock_count w) (llm_calls w).


(** The world reached by a successful [log_conversation]. *)
Definition turn_logged (RT : Runtime) (w : world) (sid : sqlval) (role : string)
           (msg : sqlval) : world :=
  with_turn (ticked (drawn w))
            (ConversationRow (uuid4 (uuid_count w)) sid role msg
                             (utcnow (clock_count w))).

(** The rows of [policies] that [WHERE policy_number = ?] selects. *)
Definition matches (RT : Runtime) (v : sqlval) (r : policy_row) : bool :=
  sql_eq_text (p_policy_number r) v.

(** The answer to a request without a text. *)
Definition text_required : response :=
  jsonify_with
    (JObj [("error",
            JStr "Provide 'text' (extracted PDF text) or 'file_url' (text).")])
    400.

(** [agent_json.get("reply", "")] of a response body (line 362). *)
Definition response_reply (b : json) : json :=
  match b with
  | JObj kvs => dict_get kvs "reply" (JStr "")
  | _ => JStr ""
  end.

(** The session id of a request: its own when truthy, else the uuid drawn
    at line 286. *)
Definition session_of (RT : Runtime) (req : json) (w : world) : json :=
  py_or (request_field req "session_id" JNull) (JStr (uuid4 (uuid_count w))).

(** The world after line 286. *)
Definition after_session (req : json) (w : world) : world :=
  if truthy (request_field req "session_id" JNull) then w else drawn w.

(** The 400 bodies of the other endpoints. *)
Definition required (what : string) : response :=
  jsonify_with (JObj [("error", JStr (what ++ " required"))]) 400.

(** The message of line 128. *)
Definition no_key : exn := RuntimeError "OPENAI_API_KEY not set in environment.".

(** *** More scenarios *)

Module Scenario2.

(** No API key is configured. *)
Definition world_no_key : world := World None "gpt-4o-mini" [] [] 0 0 [].

Definition sms_request : json :=
  JObj [("to", JStr "+919800000000"); ("text", JStr "Your policy is due.")].

(** A text that is a number, not a string. *)
Definition numeric_text_request : json := JObj [("text", JInt 5)].

(** The parser answers with a JSON array. *)
Definition rt_parse_array : Runtime := Sim.runtime [Scenario.says (JArr [JInt 1])].

(** Two different documents for the same policy number. *)
Definition policy_doc_v2 : list (string * json) :=
  [("policy_number", JStr "POL123"); ("premium_amount", JInt 1500)].

Definition rt_parse_twice : Runtime :=
  Sim.runtime [Scenario.says (JObj Scenario.policy_doc);
               Scenario.says (JObj policy_doc_v2)].

Definition world_two_versions : world :=
  snd (parse_policy (RT := rt_parse_twice) Scenario.parse_request
         (snd (parse_policy (RT := rt_parse_twice) Scenario.parse_request
                            Sim.world0))).

(** The [str] of one lone surrogate, U+D800, as [json.loads] yields it from
    the escape [\ud800]. *)
Definition lone_surrogate : string :=
  String (ascii_of_nat 237)
         (String (ascii_of_nat 160) (String (ascii_of_nat 128) EmptyString)).

(** The last code point before the surrogates, U+D7FF. *)
Definition before_surrogates : string :=
  String (ascii_of_nat 237)
         (String (ascii_of_nat 159) (String (ascii_of_nat 191) EmptyString)).

Definition surrogate_name_doc : list (string * json) :=
  [("policy_number", JStr "POL555"); ("customer_name", JStr lone_surrogate)].

Definition surrogate_message : json :=
  JObj [("session_id", JStr "s1"); ("message", JStr lone_surrogate)].

End Scenario2.

(* ===================================================================== *)
(** ** Reasoning about handlers *)
(* ===================================================================== *)

(** From here on [++] is list concatenation; strings say [%string]. *)
Local Open Scope list_scope.

(** *** Inversion of the monad's combinators *)

Lemma bind_inr {A B} (c : M A) (k : A -> M B) w b w' :
  bind c k w = (inr b, w') ->
  exists a w1, c w = (inr a, w1) /\ k a w1 = (inr b, w').
Proof.
  unfold bind. destruct (c w) as [[e | a] w1]; intros H.
  - discriminate.
  - exists a, w1. split; [reflexivity | exact H].
Qed.

Lemma bind_step {A B} (c : M A) (k : A -> M B) w a w1 :
  c w = (inr a, w1) -> bind c k w = k a w1.
Proof. intros H. unfold bind. rewrite H. reflexivity. Qed.

Lemma bind_fail {A B} (c : M A) (k : A -> M B) w e w1 :
  c w = (inl e, w1) -> bind c k w = (inl e, w1).
Proof. intros H. unfold bind. rewrite H. reflexivity. Qed.

Lemma try_except_caught {A} (c : M A) (h : exn -> M A) w e w1 :
  c w = (inl e, w1) -> try_except c h w = h e w1.
Proof. intros H. unfold try_except. rewrite H. reflexivity. Qed.

Lemma lift_inr {A} (r : exn + A) w a w' :
  lift r w = (inr a, w') -> r = inr a /\ w' = w.
Proof.
  destruct r as [e | x]; cbn; intros H; inversion H; subst; auto.
Qed.

(** *** Computations that move the world along a preorder *)

Lemma moves_run (R : world -> world -> Prop) {A} (c : M A) w r w' :
  moves R c -> c w = (r, w') -> R w w'.
Proof. intros Hm H. specialize (Hm w). rewrite H in Hm. exact Hm. Qed.

Section Preorder.

Variable R : world -> world -> Prop.
Hypothesis R_refl : forall w, R w w.
Hypothesis R_trans : forall w1 w2 w3, R w1 w2 -> R w2 w3 -> R w1 w3.

Lemma moves_ret {A} (a : A) : moves R (ret a).
Proof. intros w. apply R_refl. Qed.

Lemma moves_raise {A} (e : exn) : moves R (@raise A e).
Proof. intros w. apply R_refl. Qed.

Lemma moves_lift {A} (r : exn + A) : moves R (lift r).
Proof. destruct r; [apply moves_raise | apply moves_ret]. Qed.

Lemma moves_bind {A B} (c : M A) (k : A -> M B) :
  moves R c -> (forall a, moves R (k a)) -> moves R (bind c k).
Proof.
  intros Hc Hk w. unfold bind. specialize (Hc w).
  destruct (c w) as [[e | a] w1]; cbn in *.
  - exact Hc.
  - eapply R_trans; [exact Hc | apply Hk].
Qed.

Lemma moves_try_except {A} (c : M A) (h : exn -> M A) :
  moves R c -> (forall e, moves R (h e)) -> moves R (try_except c h).
Proof.
  intros Hc Hh w. unfold try_except. specialize (Hc w).
  destruct (c w) as [[e | a] w1]; cbn in *.
  - eapply R_trans; [exact Hc | apply Hh].
  - exact Hc.
Qed.

Context {RT : Runtime}.

Lemma moves_py_get d k dflt : moves R (py_get d k dflt).
Proof. destruct d; cbn; auto using @moves_ret, @moves_raise. Qed.

Lemma moves_py_setitem d k v : moves R (py_setitem d k v).
Proof. destruct d; cbn; auto using @moves_ret, @moves_raise. Qed.

Lemma moves_py_str_add p v : moves R (py_str_add p v).
Proof. destruct v; cbn; auto using @moves_ret, @moves_raise. Qed.

Lemma moves_py_or_else a (b : M json) : moves R b -> moves R (py_or_else a b).
Proof. intros Hb. unfold py_or_else. destruct (truthy a); auto using @moves_ret. Qed.

End Preorder.

(** *** The record store only grows *)

Lemma extends_refl w : extends w w.
Proof. split; exists []; rewrite app_nil_r; reflexivity. Qed.

Lemma extends_trans w1 w2 w3 : extends w1 w2 -> extends w2 w3 -> extends w1 w3.
Proof.
  intros [[p1 Hp1] [c1 Hc1]] [[p2 Hp2] [c2 Hc2]]. split.
  - exists (p1 ++ p2). rewrite Hp2, Hp1, app_assoc. reflexivity.
  - exists (c1 ++ c2). rewrite Hc2, Hc1, app_assoc. reflexivity.
Qed.

Lemma same_tables_refl w : same_tables w w.
Proof. split; reflexivity. Qed.

Lemma same_tables_trans w1 w2 w3 :
  same_tables w1 w2 -> same_tables w2 w3 -> same_tables w1 w3.
Proof. intros [H1 H2] [H3 H4]. split; congruence. Qed.

Lemma same_tables_extends w w' : same_tables w w' -> extends w w'.
Proof.
  intros [Hp Hc]. split; exists []; rewrite app_nil_r; assumption.
Qed.

Section Growth.

Context {RT : Runtime}.

Lemma same_uuid4_str : moves same_tables uuid4_str.
Proof. intros w. split; reflexivity. Qed.

Lemma same_utcnow_isoformat : moves same_tables utcnow_isoformat.
Proof. intros w. split; reflexivity. Qed.

Lemma same_call_llm msgs t n : moves same_tables (call_llm msgs t n).
Proof. intros w. unfold call_llm. destruct (api_key w); split; reflexivity. Qed.

Lemma same_select_raw_parse p : moves same_tables (select_raw_parse p).
Proof. intros w. split; reflexivity. Qed.

Lemma same_llm_json msgs n : moves same_tables (llm_json msgs n).
Proof.
  unfold llm_json.
  apply (moves_bind _ same_tables_trans); [ apply same_call_llm | intros out ].
  apply (moves_lift _ same_tables_refl).
Qed.

Lemma grows_of_same {A} (c : M A) : moves same_tables c -> moves extends c.
Proof. intros H w. apply same_tables_extends, H. Qed.

Lemma grows_insert_policy r : moves extends (insert_policy r).
Proof.
  intros w. unfold insert_policy.
  destruct (existsb _ _); cbn.
  - apply extends_refl.
  - split; [exists [r] | exists []; rewrite app_nil_r]; reflexivity.
Qed.

Lemma grows_insert_conversation r : moves extends (insert_conversation r).
Proof.
  intros w. unfold insert_conversation.
  destruct (existsb _ _); cbn.
  - apply extends_refl.
  - split; [exists []; rewrite app_nil_r | exists [r]]; reflexivity.
Qed.

End Growth.

(** Decomposes a goal [moves R c] along the syntax of [c]. *)
Ltac moves_step Rrefl Rtrans :=
  match goal with
  | |- moves _ (bind _ _) => apply (moves_bind _ Rtrans); [ | intros ? ]
  | |- moves _ (try_except _ _) =>
      apply (moves_try_except _ Rtrans); [ | intros ? ]
  | |- moves _ (ret _) => apply (moves_ret _ Rrefl)
  | |- moves _ (raise _) => apply (moves_raise _ Rrefl)
  | |- moves _ (lift _) => apply (moves_lift _ Rrefl)
  | |- moves _ (py_get _ _ _) => apply (moves_py_get _ Rrefl)
  | |- moves _ (py_setitem _ _ _) => apply (moves_py_setitem _ Rrefl)
  | |- moves _ (py_str_add _ _) => apply (moves_py_str_add _ Rrefl)
  | |- moves _ (py_or_else _ _) => apply (moves_py_or_else _ Rrefl)
  | |- moves _ (if ?b then _ else _) => destruct b
  | |- moves _ (match ?x with inl _ => _ | inr _ => _ end) => destruct x
  | |- moves _ (match ?x with Some _ => _ | None => _ end) => destruct x
  end.

Ltac grows_prim :=
  first [ apply grows_insert_policy
        | apply grows_insert_conversation
        | apply grows_of_same;
          first [ apply same_uuid4_str | apply same_utcnow_isoformat
                | apply same_call_llm | apply same_select_raw_parse
                | apply same_llm_json ] ].

Ltac grows := repeat first [ moves_step extends_refl extends_trans | grows_prim ].

Ltac same_prim :=
  first [ apply same_uuid4_str | apply same_utcnow_isoformat
        | apply same_call_llm | apply same_select_raw_parse
        | apply same_llm_json ].

Ltac unchanged :=
  repeat first [ moves_step same_tables_refl same_tables_trans | same_prim ].

Section StoreFacts.

Context {RT : Runtime}.

Lemma grows_save_policy parsed : moves extends (save_policy parsed).
Proof. unfold save_policy. grows. Qed.

Lemma grows_log_conversation sid r m : moves extends (log_conversation sid r m).
Proof. unfold log_conversation. grows. Qed.

Lemma same_get_policy_by_number pn : moves same_tables (get_policy_by_number pn).
Proof. unfold get_policy_by_number. unchanged. Qed.

Lemma same_extract_policy text : moves same_tables (extract_policy text).
Proof. unfold extract_policy. unchanged. Qed.

Lemma same_intent_or_default t : moves same_tables (intent_or_default t).
Proof. unfold intent_or_default, intent_attempt. unchanged. Qed.

Lemma same_sentiment_or_default t : moves same_tables (sentiment_or_default t).
Proof. unfold sentiment_or_default, sentiment_attempt. unchanged. Qed.

Lemma same_agent_decision l p : moves same_tables (agent_decision l p).
Proof. unfold agent_decision, agent_attempt. unchanged. Qed.

Lemma same_resolve_payment policy d : moves same_tables (resolve_payment policy d).
Proof. unfold resolve_payment. unchanged. Qed.

Lemma grows_parse_policy req : moves extends (parse_policy req).
Proof.
  unfold parse_policy. grows.
  - apply grows_of_same, same_extract_policy.
  - apply grows_save_policy.
Qed.

Lemma same_nlu_intent req : moves same_tables (nlu_intent req).
Proof. unfold nlu_intent. unchanged. Qed.

Lemma same_nlu_sentiment req : moves same_tables (nlu_sentiment req).
Proof. unfold nlu_sentiment. unchanged. Qed.

Lemma same_payments_initiate req : moves same_tables (payments_initiate req).
Proof. unfold payments_initiate. unchanged. Qed.

Lemma same_notify_sms req : moves same_tables (notify_sms req).
Proof. unfold notify_sms. unchanged. Qed.

Lemma same_health req : moves same_tables (health req).
Proof. unfold health. unchanged. Qed.

Lemma grows_agent_turn sid policy language user_text :
  moves extends (agent_turn sid policy language user_text).
Proof.
  unfold agent_turn, finish_turn. grows;
    first [ apply grows_log_conversation
          | apply grows_of_same;
            first [ apply same_intent_or_default
                  | apply same_sentiment_or_default
                  | apply same_agent_decision
                  | apply same_resolve_payment ] ].
Qed.

Lemma grows_agent_message req : moves extends (agent_message req).
Proof.
  unfold agent_message. grows;
    first [ apply grows_log_conversation
          | apply grows_agent_turn
          | apply grows_of_same, same_get_policy_by_number ].
Qed.

End StoreFacts.

(* ===================================================================== *)
(** ** The record store *)
(* ===================================================================== *)

(** One step of inversion of a successful run [H : (x <- c ;; k) w = (inr _, _)]:
    [c] succeeded, and what it did is recorded. *)
Ltac bind_inv H :=
  let a := fresh "a" in
  let w1 := fresh "w" in
  let Ha := fresh "Ha" in
  apply bind_inr in H; destruct H as (a & w1 & Ha & H);
  lazymatch type of Ha with
  | lift _ _ = _ => apply lift_inr in Ha; destruct Ha as [Ha ->]
  | uuid4_str _ = _ => unfold uuid4_str in Ha; inversion Ha; subst a w1; clear Ha
  | utcnow_isoformat _ = _ =>
      unfold utcnow_isoformat in Ha; inversion Ha; subst a w1; clear Ha
  | py_get (JObj _) _ _ _ = _ =>
      unfold py_get, ret in Ha; inversion Ha; subst a w1; clear Ha
  | _ => idtac
  end.

(** *** Lists, dictionaries and SQL values *)

Lemma dict_lookup_set_same k v d : dict_lookup k (dict_set k v d) = Some v.
Proof.
  induction d as [ | [k' v'] d IH ]; cbn.
  - rewrite String.eqb_refl. reflexivity.
  - destruct (k' =? k)%string eqn:E; cbn.
    + rewrite String.eqb_refl. reflexivity.
    + rewrite E. exact IH.
Qed.

Lemma dict_lookup_set_other k k' v d :
  k' <> k -> dict_lookup k' (dict_set k v d) = dict_lookup k' d.
Proof.
  intros Hne. induction d as [ | [k0 v0] d IH ]; cbn.
  - destruct (k =? k')%string eqn:E; [ | reflexivity ].
    apply String.eqb_eq in E. congruence.
  - destruct (k0 =? k)%string eqn:E; cbn.
    + apply String.eqb_eq in E. subst k0.
      destruct (k =? k')%string eqn:E'; [ | reflexivity ].
      apply String.eqb_eq in E'. congruence.
    + destruct (k0 =? k')%string; [ reflexivity | exact IH ].
Qed.

Lemma dict_remove_set_absent k v d :
  dict_lookup k d = None -> dict_remove k (dict_set k v d) = d.
Proof.
  induction d as [ | [k' v'] d IH ]; cbn.
  - intros _. rewrite String.eqb_refl. reflexivity.
  - destruct (k' =? k)%string eqn:E; [ discriminate | ].
    intros H. cbn. rewrite E, IH by exact H. reflexivity.
Qed.

Lemma existsb_id_false pid (rows : list policy_row) :
  existsb (fun r => (p_id r =? pid)%string) rows = false ->
  ~ In pid (map p_id rows).
Proof.
  intros H Hin. apply in_map_iff in Hin. destruct Hin as (r & Hr & Hin).
  assert (existsb (fun r => (p_id r =? pid)%string) rows = true).
  { apply existsb_exists. exists r. split; [ exact Hin | ].
    rewrite Hr. apply String.eqb_refl. }
  congruence.
Qed.

Lemma find_app_unmatched {A} (f : A -> bool) (l1 l2 : list A) :
  (forall x, In x l1 -> f x = false) -> find f (l1 ++ l2) = find f l2.
Proof.
  induction l1 as [ | x l1 IH ]; intros H; cbn.
  - reflexivity.
  - rewrite (H x) by (left; reflexivity).
    apply IH. intros y Hy. apply H. right. exact Hy.
Qed.

Lemma sqlite_bind_index {RT : Runtime} i j v x :
  sqlite_bind i v = inr x -> sqlite_bind j v = inr x.
Proof. destruct v; cbn; intros H; try exact H; discriminate H. Qed.

Lemma sql_eq_text_refl {RT : Runtime} v : v <> SNull -> sql_eq_text v v = true.
Proof.
  intros H. unfold sql_eq_text.
  destruct v; cbn; try apply String.eqb_refl. congruence.
Qed.

Section RecordStore.

Context {RT : Runtime}.

(** C8.  No endpoint mutates or deletes a stored PolicyRecord or
    ConversationTurn: whatever the endpoint, the request and the outcome
    (a response or an unhandled exception), each table after the request is
    the table before it with zero or more rows appended, so every earlier
    row is still there, unchanged and at the same place. *)
Theorem record_store_append_only (ep : endpoint) (req : json) (w : world) :
  exists ps cs,
    policies (snd (dispatch ep req w)) = policies w ++ ps /\
    conversations (snd (dispatch ep req w)) = conversations w ++ cs.
Proof.
  assert (H : extends w (snd (dispatch ep req w))).
  { destruct ep; cbn [dispatch].
    - apply grows_parse_policy.
    - apply same_tables_extends, same_nlu_intent.
    - apply same_tables_extends, same_nlu_sentiment.
    - apply grows_agent_message.
    - apply same_tables_extends, same_payments_initiate.
    - apply same_tables_extends, same_notify_sms.
    - apply same_tables_extends, same_health. }
  destruct H as [[ps Hp] [cs Hc]]. exists ps, cs. split; assumption.
Qed.

(** What a successful [save_policy] did. *)
Lemma save_policy_inr parsed w pid w' :
  save_policy parsed w = (inr pid, w') ->
  exists kvs row,
    parsed = JObj kvs /\
    pid = uuid4 (uuid_count w) /\
    p_id row = pid /\
    sqlite_bind 1 (dict_get kvs "policy_number" JNull) = inr (p_policy_number row) /\
    p_raw_parse row = json_dumps parsed /\
    existsb (fun r' => (p_id r' =? pid)%string) (policies w) = false /\
    policies w' = policies w ++ [row] /\
    conversations w' = conversations w.
Proof.
  intros H. destruct parsed as [ | b | z | x | s | l | kvs ];
    try (cbn in H; discriminate H).
  unfold save_policy in H.
  repeat (bind_inv H).
  unfold ret in H. inversion H; subst pid w'; clear H.
  unfold insert_policy in Ha7. cbn [policies p_id] in Ha7.
  destruct (existsb _ (policies w)) eqn:Hfresh; inversion Ha7; subst; clear Ha7.
  eexists kvs, _. cbn.
  repeat split; try reflexivity; assumption.
Qed.

(** The 500 of [extract_policy] is the only response it builds. *)
Lemma extract_policy_inl text w r w1 :
  extract_policy text w = (inr (inl r), w1) -> status r = 500.
Proof.
  unfold extract_policy, try_except. intros H.
  destruct (bind _ _ w) as [[e | a] w2] eqn:E1.
  - destruct (bind _ _ w2) as [[e2 | a2] w3] eqn:E2.
    + inversion H; subst. reflexivity.
    + repeat (bind_inv E2). inversion E2; subst. inversion H.
  - repeat (bind_inv E1). inversion E1; subst. inversion H.
Qed.

(** What a 200 of [parse_policy] went through: a truthy text, an
    extraction that produced a dict [P], and [save_policy P]. *)
Lemma parse_policy_200 req w resp w' :
  parse_policy req w = (inr resp, w') -> status resp = 200 ->
  exists P w1 pid,
    truthy (request_text req) = true /\
    extract_policy (request_text req) w = (inr (inr (JObj P)), w1) /\
    save_policy (JObj P) w1 = (inr pid, w') /\
    resp = jsonify (JObj (dict_set "_db_id" (JStr pid) P)).
Proof.
  unfold parse_policy, request_text. intros H Hs.
  destruct (py_or req (JObj [])) as [ | b | z | x | s | l | kvs ];
    try (cbn in H; discriminate H).
  bind_inv H. bind_inv H.
  assert (w0 = w /\ a = py_or (dict_get kvs "text" JNull)
                           (py_or (dict_get kvs "file_url" JNull) (JStr "")))
    as [-> ->].
  { unfold py_or_else, py_or in *. destruct (truthy (dict_get kvs "text" JNull)).
    - inversion Ha; auto.
    - bind_inv Ha. destruct (truthy _); inversion Ha; auto. }
  clear Ha. cbn [json_get].
  destruct (truthy (py_or _ _)) eqn:Ht; cbn [negb] in H.
  - bind_inv H. destruct a as [r | parsed].
    + inversion H; subst. apply extract_policy_inl in Ha. lia.
    + bind_inv H.
      destruct (save_policy_inr _ _ _ _ Ha0) as (P & row & -> & _).
      bind_inv H. unfold py_setitem, ret in Ha1. inversion Ha1; subst.
      inversion H; subst.
      exists P, w0, a. auto.
  - inversion H; subst resp; cbn in Hs; discriminate Hs.
Qed.

(** C5.  Every successful POST /v1/policy/parse appends exactly one new row
    to [policies], whatever the table already holds (no upsert, no lookup
    of the policy_number), under an identifier that no stored row carries
    and that is the response's [_db_id]; and when the very next call (here
    with the same request) succeeds too, its [_db_id] is a different one. *)
Theorem parse_inserts_fresh_record req w r1 w1 :
  parse_policy req w = (inr r1, w1) -> status r1 = 200 ->
  exists pid row,
    policies w1 = policies w ++ [row] /\
    p_id row = pid /\
    ~ In pid (map p_id (policies w)) /\
    db_id r1 = Some (JStr pid) /\
    forall r2 w2,
      parse_policy req w1 = (inr r2, w2) -> status r2 = 200 ->
      exists pid2 row2,
        policies w2 = policies w ++ [row; row2] /\
        p_id row2 = pid2 /\
        db_id r2 = Some (JStr pid2) /\
        pid2 <> pid.
Proof.
  assert (one : forall w r w',
             parse_policy req w = (inr r, w') -> status r = 200 ->
             exists pid row,
               policies w' = policies w ++ [row] /\ p_id row = pid /\
               ~ In pid (map p_id (policies w)) /\ db_id r = Some (JStr pid)).
  { clear. intros w r w' H Hs.
    destruct (parse_policy_200 _ _ _ _ H Hs) as (P & w0 & pid & _ & Hx & Hsave & ->).
    destruct (save_policy_inr _ _ _ _ Hsave)
      as (P' & row & _ & _ & Hid & _ & _ & Hfresh & Hpol & _).
    pose proof (same_extract_policy (request_text req) w) as [Hsame _].
    rewrite Hx in Hsame. cbn [snd] in Hsame. rewrite Hsame in *.
    exists pid, row. repeat split; auto.
    - apply existsb_id_false. exact Hfresh.
    - unfold db_id. cbn. apply dict_lookup_set_same. }
  intros H Hs.
  destruct (one _ _ _ H Hs) as (pid & row & Hpol & Hid & Hfresh & Hdb).
  exists pid, row. repeat split; auto.
  intros r2 w2 H2 Hs2.
  destruct (one _ _ _ H2 Hs2) as (pid2 & row2 & Hpol2 & Hid2 & Hfresh2 & Hdb2).
  exists pid2, row2. repeat split; auto.
  - rewrite Hpol2, Hpol, <- app_assoc. reflexivity.
  - intros ->. apply Hfresh2. rewrite Hpol, map_app, in_app_iff.
    right. cbn. left. exact Hid.
Qed.


(** C10 (amended).  After a successful parse that persisted the extracted
    object [P]: the new row's [raw_parse] is [json.dumps(P)], taken before
    the generated [_db_id] was attached, so with every key of [P], a
    [_db_id] of its own included; the response is [P] with [_db_id] set to
    the generated identifier, and dropping that key from the response gives
    [P] back only when [P] has no [_db_id] of its own; and whenever
    [json.loads] undoes [json.dumps] on [P], the policy_number of [P] is
    stored as a non-NULL value and no earlier row matches it,
    [get_policy_by_number(P.policy_number)] returns exactly [P], now and
    after any further inserts. *)
Theorem parse_lookup_roundtrip req w resp w' P w0 :
  parse_policy req w = (inr resp, w') -> status resp = 200 ->
  extract_policy (request_text req) w = (inr (inr P), w0) ->
  exists kvs row pid,
    P = JObj kvs /\
    policies w' = policies w ++ [row] /\
    p_raw_parse row = json_dumps P /\
    body resp = JObj (dict_set "_db_id" (JStr pid) kvs) /\
    (dict_lookup "_db_id" kvs = None ->
     dict_remove "_db_id" (dict_set "_db_id" (JStr pid) kvs) = kvs) /\
    forall pn v w2 later,
      dict_lookup "policy_number" kvs = Some pn ->
      sqlite_bind 0 pn = inr v -> v <> SNull ->
      (forall r, In r (policies w) -> sql_eq_text (p_policy_number r) v = false) ->
      json_loads (json_dumps P) = inr P ->
      policies w2 = policies w' ++ later ->
      get_policy_by_number pn w2 = (inr P, w2).
Proof.
  intros H Hs HP.
  destruct (parse_policy_200 _ _ _ _ H Hs) as (kvs & w1 & pid & _ & Hx & Hsave & ->).
  rewrite Hx in HP. inversion HP; subst P w0; clear HP.
  destruct (save_policy_inr _ _ _ _ Hsave)
    as (P' & row & HP & _ & Hid & Hnum & Hraw & _ & Hpol & _).
  inversion HP; subst P'; clear HP.
  pose proof (same_extract_policy (request_text req) w) as [Hsame _].
  rewrite Hx in Hsame. cbn [snd] in Hsame. rewrite Hsame in *.
  exists kvs, row, pid. repeat split; auto.
  - apply dict_remove_set_absent.
  - intros pn v w2 later Hpn Hbind Hv Hfirst Hloads Hw2.
    unfold dict_get in Hnum. rewrite Hpn in Hnum.
    rewrite (sqlite_bind_index _ 1 _ _ Hbind) in Hnum.
    inversion Hnum as [Hcol]; clear Hnum.
    unfold get_policy_by_number.
    rewrite (bind_step _ _ _ v w2) by (rewrite Hbind; reflexivity).
    unfold select_raw_parse, bind.
    rewrite Hw2, Hpol, <- app_assoc, (find_app_unmatched _ _ _ Hfirst).
    cbn [app find]. rewrite <- Hcol, (sql_eq_text_refl v Hv). cbn [option_map].
    rewrite Hraw, Hloads. reflexivity.
Qed.


End RecordStore.

(** The scenario: two parse calls in a row on a fresh database, same text,
    same model answer; both succeed and their identifiers differ. *)
Lemma parse_inserts_fresh_record_witness :
  parse_policy (RT := Scenario.rt_parse) Scenario.parse_request Sim.world0
  = (inr Scenario.parse_response1, Scenario.parse_world1) /\
  status Scenario.parse_response1 = 200 /\
  exists r2 pid pid2,
    fst (parse_policy (RT := Scenario.rt_parse) Scenario.parse_request
                      Scenario.parse_world1) = inr r2 /\
    db_id Scenario.parse_response1 = Some (JStr pid) /\
    db_id r2 = Some (JStr pid2) /\
    pid2 <> pid.
Proof.
  assert (H1 : parse_policy (RT := Scenario.rt_parse) Scenario.parse_request
                            Sim.world0
               = (inr Scenario.parse_response1, Scenario.parse_world1))
    by (vm_compute; reflexivity).
  split; [ exact H1 | ]. split; [ reflexivity | ].
  destruct (parse_inserts_fresh_record (RT := Scenario.rt_parse) _ _ _ _ H1 eq_refl)
    as (pid & row & _ & _ & _ & Hdb & Hnext).
  destruct (parse_policy (RT := Scenario.rt_parse) Scenario.parse_request
                         Scenario.parse_world1) as [[e | r2] w2] eqn:H2;
    [ vm_compute in H2; discriminate H2 | ].
  assert (Hs2 : status r2 = 200)
    by (vm_compute in H2; inversion H2; reflexivity).
  destruct (Hnext r2 w2 eq_refl Hs2) as (pid2 & row2 & _ & _ & Hdb2 & Hne).
  exists r2, pid, pid2. auto.
Defined.

(** The scenario: the policy POL123 is parsed into a fresh database and
    looked up by its number. *)
Lemma parse_lookup_roundtrip_witness :
  parse_policy (RT := Scenario.rt_parse) Scenario.parse_request Sim.world0
  = (inr Scenario.parse_response1, Scenario.parse_world1) /\
  status Scenario.parse_response1 = 200 /\
  fst (extract_policy (RT := Scenario.rt_parse)
                      (request_text Scenario.parse_request) Sim.world0)
  = inr (inr (JObj Scenario.policy_doc)) /\
  get_policy_by_number (RT := Scenario.rt_parse) (JStr "POL123")
                       Scenario.parse_world1
  = (inr (JObj Scenario.policy_doc), Scenario.parse_world1).
Proof.
  assert (H1 : parse_policy (RT := Scenario.rt_parse) Scenario.parse_request
                            Sim.world0
               = (inr Scenario.parse_response1, Scenario.parse_world1))
    by (vm_compute; reflexivity).
  destruct (extract_policy (RT := Scenario.rt_parse)
                           (request_text Scenario.parse_request) Sim.world0)
    as [r w0] eqn:Hx.
  assert (Hr : r = inr (inr (JObj Scenario.policy_doc)))
    by (vm_compute in Hx; inversion Hx; reflexivity).
  subst r.
  split; [ exact H1 | ]. split; [ reflexivity | ]. split; [ reflexivity | ].
  destruct (parse_lookup_roundtrip (RT := Scenario.rt_parse) _ _ _ _ _ _
                                   H1 eq_refl Hx)
    as (kvs & row & pid & HP & _ & _ & _ & _ & Hget).
  inversion HP; subst kvs; clear HP.
  apply (Hget (JStr "POL123") (SText "POL123") Scenario.parse_world1 []).
  - reflexivity.
  - reflexivity.
  - discriminate.
  - intros r [].
  - vm_compute. reflexivity.
  - rewrite app_nil_r. reflexivity.
Defined.

(** C10 as stated fails: the parser's document carries a [_db_id] of its
    own.  The parse answers 200 with the generated identifier under
    [_db_id]; the stored [raw_parse] is the text of the document with its
    own [_db_id], not of the response without that key, and the lookup by
    the policy number returns the document with its own [_db_id]. *)
Lemma stored_document_keeps_its_own_db_id :
  exists obj row w',
    parse_policy (RT := Scenario.rt_own_id) Scenario.parse_request Sim.world0
    = (inr (jsonify (JObj obj)), w') /\
    policies w' = [row] /\
    dict_lookup "_db_id" obj = Some (JStr (Sim.uuid_of 0)) /\
    p_raw_parse row
    = json_dumps (Runtime := Scenario.rt_own_id) (JObj Scenario.own_id_doc) /\
    p_raw_parse row
    <> json_dumps (Runtime := Scenario.rt_own_id)
                  (JObj (dict_remove "_db_id" obj)) /\
    get_policy_by_number (RT := Scenario.rt_own_id) (JStr "POL777") w'
    = (inr (JObj Scenario.own_id_doc), w') /\
    dict_lookup "_db_id" Scenario.own_id_doc = Some (JStr "mine") /\
    dict_remove "_db_id" obj = dict_remove "_db_id" Scenario.own_id_doc /\
    JObj Scenario.own_id_doc <> JObj (dict_remove "_db_id" obj).
Proof.
  eexists _, _, _. split; [ vm_compute; reflexivity | ].
  split; [ reflexivity | ].
  split; [ reflexivity | ].
  split; [ vm_compute; reflexivity | ].
  split; [ vm_compute; discriminate | ].
  split; [ vm_compute; reflexivity | ].
  split; [ reflexivity | ].
  split; [ reflexivity | ].
  vm_compute. discriminate.
Qed.

(* ===================================================================== *)
(** ** The model calls *)
(* ===================================================================== *)

Lemma same_calls_refl w : same_calls w w.
Proof. repeat split. Qed.

Lemma same_calls_trans w1 w2 w3 :
  same_calls w1 w2 -> same_calls w2 w3 -> same_calls w1 w3.
Proof.
  unfold same_calls. intros (H1 & H2 & H3) (H4 & H5 & H6).
  repeat split; congruence.
Qed.

Ltac quiet :=
  repeat first
    [ moves_step same_calls_refl same_calls_trans
    | match goal with
      | |- moves _ uuid4_str => intros ?; repeat split
      | |- moves _ utcnow_isoformat => intros ?; repeat split
      | |- moves _ (select_raw_parse _) => intros ?; repeat split
      | |- moves _ (insert_policy _) =>
          intros ?; unfold insert_policy; destruct (existsb _ _); repeat split
      | |- moves _ (insert_conversation _) =>
          intros ?; unfold insert_conversation; destruct (existsb _ _);
          repeat split
      end ].

Section ModelCalls.

Context {RT : Runtime}.

Lemma call_llm_world msgs t n w :
  snd (call_llm msgs t n w) = logged w (LlmCall msgs t n).
Proof. unfold call_llm, logged. destruct (api_key w); reflexivity. Qed.

(** An attempt, failed or not, is exactly one [call_llm]. *)
Lemma llm_json_world msgs n w :
  snd (llm_json msgs n w) = logged w (LlmCall msgs float_zero n).
Proof.
  unfold llm_json, bind. pose proof (call_llm_world msgs float_zero n w) as H.
  destruct (call_llm msgs float_zero n w) as [[e | out] w1]; cbn [snd] in H.
  - exact H.
  - destruct (json_loads out); exact H.
Qed.

(** What a call answers depends on the world only through the model API's
    configuration and the number of calls made. *)
Lemma llm_json_same_calls msgs n w w' :
  same_calls w w' -> fst (llm_json msgs n w') = fst (llm_json msgs n w).
Proof.
  intros (Hc & Hk & Hm). unfold llm_json, bind, call_llm.
  rewrite Hc, Hk, Hm. destruct (api_key w); [ | reflexivity ].
  destruct (chat_completion _ _ _) as [e | out]; [ reflexivity | ].
  destruct (json_loads out); reflexivity.
Qed.

Lemma llm_json_result msgs n w r w1 :
  llm_json msgs n w = (r, w1) -> w1 = logged w (LlmCall msgs float_zero n).
Proof. intros H. rewrite <- llm_json_world, H. reflexivity. Qed.

Lemma quiet_save_policy parsed : moves same_calls (save_policy parsed).
Proof. unfold save_policy. quiet. Qed.

Lemma quiet_log_conversation sid r m : moves same_calls (log_conversation sid r m).
Proof. unfold log_conversation. quiet. Qed.

Lemma quiet_get_policy_by_number pn : moves same_calls (get_policy_by_number pn).
Proof. unfold get_policy_by_number. quiet. Qed.

Lemma quiet_resolve_payment policy d : moves same_calls (resolve_payment policy d).
Proof. unfold resolve_payment. quiet. Qed.

(** The three steps of the turn never raise, and each is one call. *)

Lemma intent_or_default_total user_text w :
  exists nlu,
    intent_or_default user_text w = (inr nlu, logged w (intent_call user_text)) /\
    (forall e w1, intent_attempt user_text w = (inl e, w1) -> nlu = default_nlu) /\
    (forall v w1, intent_attempt user_text w = (inr v, w1) -> nlu = v).
Proof.
  unfold intent_or_default, try_except.
  destruct (intent_attempt user_text w) as [[e | v] w1] eqn:E;
    apply llm_json_result in E; subst w1.
  - exists default_nlu. repeat split; auto. intros v w1 H. discriminate H.
  - exists v. repeat split; auto.
    + intros e w1 H. discriminate H.
    + intros v' w1 H. inversion H; reflexivity.
Qed.

Lemma sentiment_or_default_total user_text w :
  exists sent,
    sentiment_or_default user_text w
    = (inr sent, logged w (sentiment_call user_text)) /\
    (forall e w1, sentiment_attempt user_text w = (inl e, w1) ->
                  sent = default_sent) /\
    (forall v w1, sentiment_attempt user_text w = (inr v, w1) -> sent = v).
Proof.
  unfold sentiment_or_default, try_except.
  destruct (sentiment_attempt user_text w) as [[e | v] w1] eqn:E;
    apply llm_json_result in E; subst w1.
  - exists default_sent. repeat split; auto. intros v w1 H. discriminate H.
  - exists v. repeat split; auto.
    + intros e w1 H. discriminate H.
    + intros v' w1 H. inversion H; reflexivity.
Qed.

Lemma agent_decision_total language prompt w :
  exists D,
    agent_decision language prompt w = (inr D, logged w (decision_call prompt)) /\
    (forall e w1, agent_attempt prompt w = (inl e, w1) ->
                  D = fallback_decision language e) /\
    (forall v w1, agent_attempt prompt w = (inr v, w1) -> D = v).
Proof.
  unfold agent_decision, try_except.
  destruct (agent_attempt prompt w) as [[e | v] w1] eqn:E;
    apply llm_json_result in E; subst w1.
  - exists (fallback_decision language e). repeat split; auto.
    + intros e' w1 H. inversion H; reflexivity.
    + intros v w1 H. discriminate H.
  - exists v. repeat split; auto.
    + intros e w1 H. discriminate H.
    + intros v' w1 H. inversion H; reflexivity.
Qed.

Lemma quiet_finish_turn sid policy D : moves same_calls (finish_turn sid policy D).
Proof.
  unfold finish_turn. quiet.
  - apply quiet_resolve_payment.
  - apply quiet_log_conversation.
Qed.

(** The turn, unrolled: three calls, then [finish_turn]. *)
Lemma agent_turn_unrolled sid policy language user_text w :
  exists nlu sent D,
    let w1 := logged w (intent_call user_text) in
    let w2 := logged w1 (sentiment_call user_text) in
    let prompt := agent_user_prompt user_text (policy_context policy)
                                    nlu sent language in
    let w3 := logged w2 (decision_call prompt) in
    intent_or_default user_text w = (inr nlu, w1) /\
    sentiment_or_default user_text w1 = (inr sent, w2) /\
    agent_decision language prompt w2 = (inr D, w3) /\
    agent_turn sid policy language user_text w = finish_turn sid policy D w3.
Proof.
  destruct (intent_or_default_total user_text w) as (nlu & H1 & _).
  destruct (sentiment_or_default_total user_text
              (logged w (intent_call user_text))) as (sent & H2 & _).
  destruct (agent_decision_total language
              (agent_user_prompt user_text (policy_context policy)
                                 nlu sent language)
              (logged (logged w (intent_call user_text))
                      (sentiment_call user_text))) as (D & H3 & _).
  exists nlu, sent, D. cbn zeta. repeat split; auto.
  unfold agent_turn.
  rewrite (bind_step _ _ _ _ _ H1), (bind_step _ _ _ _ _ H2),
          (bind_step _ _ _ _ _ H3).
  reflexivity.
Qed.

End ModelCalls.

(** *** Retries *)

Section Retry.

Context {RT : Runtime}.

(** A first failure in policy extraction on a string: the retry is made. *)
Lemma extract_policy_retry text w e w1 :
  llm_json (parser_messages (JStr text)) 600 w = (inl e, w1) ->
  extract_policy (JStr text) w
  = match llm_json (parser_messages (JStr (retry_prefix e ++ text)%string)) 600 w1 with
    | (inr parsed, w2) => (inr (inr parsed), w2)
    | (inl e2, w2) =>
        (inr (inl (jsonify_with (error_body "LLM parsing failed" (str_exn e2)) 500)),
         w2)
    end.
Proof.
  intros H. unfold extract_policy.
  rewrite (try_except_caught _ _ _ e w1) by (apply bind_fail; exact H).
  unfold try_except, py_str_add.
  unfold bind at 1. unfold ret at 1. unfold bind.
  destruct (llm_json _ 600 w1) as [[e2 | parsed] w2]; reflexivity.
Qed.

(** A failure at an endpoint that has a single [try]. *)
Lemma single_attempt_500 (msgs : list message) (n : Z) (label : string) w e w1 :
  llm_json msgs n w = (inl e, w1) ->
  bind (try_except (parsed <- llm_json msgs n ;; ret (inr parsed))
          (fun e => ret (inl (jsonify_with
                                (JObj [("error", JStr label);
                                       ("details", JStr (str_exn e))]) 500))))
       (fun r : response + json =>
          match r with
          | inl resp => ret resp
          | inr parsed => ret (jsonify parsed)
          end) w
  = (inr (jsonify_with (error_body label (str_exn e)) 500), w1).
Proof.
  intros H.
  rewrite (bind_step _ _ w
             (inl (jsonify_with (error_body label (str_exn e)) 500)) w1).
  - reflexivity.
  - rewrite (try_except_caught _ _ _ e w1) by (apply bind_fail; exact H).
    reflexivity.
Qed.

(** C3 (amended).  The corrective retry belongs to policy extraction alone.
    There, when the first attempt on the text fails with [e] (the model call
    raised, or its output did not parse), the model is invoked exactly once
    more, with the same system prompt and budget and a user message made of
    the instruction to re-output only the JSON object, the text of [e] and
    the original text; the outcome is the second attempt's document, or a
    500 carrying the second error.  The intent and sentiment endpoints make
    one call and answer 500 with the first error. *)
Theorem retry_only_in_policy_extraction
        (text : string) (kvs : list (string * json)) (w : world) :
  (forall e w1,
      llm_json (parser_messages (JStr text)) 600 w = (inl e, w1) ->
      let retry := parser_messages (JStr (retry_prefix e ++ text)%string) in
      llm_calls (snd (extract_policy (JStr text) w))
      = llm_calls w ++ [LlmCall (parser_messages (JStr text)) float_zero 600;
                        LlmCall retry float_zero 600] /\
      fst (extract_policy (JStr text) w)
      = match fst (llm_json retry 600 w1) with
        | inr parsed => inr (inr parsed)
        | inl e2 =>
            inr (inl (jsonify_with
                        (error_body "LLM parsing failed" (str_exn e2)) 500))
        end) /\
  (forall e w1,
      truthy (dict_get kvs "text" (JStr "")) = true ->
      llm_json [Message "system" (JStr SYSTEM_NLU_PROMPT);
                Message "user" (dict_get kvs "text" (JStr ""))] 200 w
      = (inl e, w1) ->
      nlu_intent (JObj kvs) w
      = (inr (jsonify_with (error_body "NLU LLM error" (str_exn e)) 500), w1) /\
      llm_calls w1
      = llm_calls w ++ [LlmCall [Message "system" (JStr SYSTEM_NLU_PROMPT);
                                 Message "user" (dict_get kvs "text" (JStr ""))]
                                float_zero 200]) /\
  (forall e w1,
      truthy (dict_get kvs "text" (JStr "")) = true ->
      llm_json [Message "system" (JStr SYSTEM_SENTIMENT_PROMPT);
                Message "user" (dict_get kvs "text" (JStr ""))] 100 w
      = (inl e, w1) ->
      nlu_sentiment (JObj kvs) w
      = (inr (jsonify_with (error_body "Sentiment LLM error" (str_exn e)) 500), w1) /\
      llm_calls w1
      = llm_calls w ++ [LlmCall [Message "system" (JStr SYSTEM_SENTIMENT_PROMPT);
                                 Message "user" (dict_get kvs "text" (JStr ""))]
                                float_zero 100]).
Proof.
  assert (Hbody : py_or (JObj kvs) (JObj []) = JObj kvs)
    by (destruct kvs; reflexivity).
  split; [ | split ].
  - intros e w1 H retry.
    rewrite (extract_policy_retry _ _ _ _ H). fold retry.
    pose proof (llm_json_result _ _ _ _ _ H) as ->.
    pose proof (llm_json_world retry 600
                  (logged w (LlmCall (parser_messages (JStr text)) float_zero 600)))
      as Hw.
    destruct (llm_json retry 600 _) as [[e2 | parsed] w2]; cbn [fst snd] in *;
      subst w2; cbn [logged llm_calls]; rewrite <- app_assoc; auto.
  - intros e w1 Ht H.
    pose proof (llm_json_result _ _ _ _ _ H) as Hw.
    split; [ | rewrite Hw; reflexivity ].
    unfold nlu_intent. rewrite Hbody. cbn [py_get].
    unfold bind at 1. unfold ret at 1. rewrite Ht. cbn [negb].
    apply single_attempt_500. exact H.
  - intros e w1 Ht H.
    pose proof (llm_json_result _ _ _ _ _ H) as Hw.
    split; [ | rewrite Hw; reflexivity ].
    unfold nlu_sentiment. rewrite Hbody. cbn [py_get].
    unfold bind at 1. unfold ret at 1. rewrite Ht. cbn [negb].
    apply single_attempt_500. exact H.
Qed.

End Retry.

(** The scenario for the retry: the parser's first answer is prose, its
    second the document; and the intent endpoint on a first answer in
    prose. *)
Lemma retry_only_in_policy_extraction_witness :
  let text := "Policy POL123, motor, Acme Insurance, premium 1200"%string in
  let e := Exn "JSONDecodeError" "Expecting value" in
  let w1 := logged Sim.world0 (LlmCall (parser_messages (JStr text)) float_zero 600) in
  let w1' := logged Sim.world0 (intent_call (JStr "I will renew today")) in
  llm_json (RT := Scenario.rt_retry) (parser_messages (JStr text)) 600 Sim.world0
  = (inl e, w1) /\
  fst (extract_policy (RT := Scenario.rt_retry) (JStr text) Sim.world0)
  = inr (inr (JObj Scenario.policy_doc)) /\
  length (llm_calls (snd (extract_policy (RT := Scenario.rt_retry)
                                         (JStr text) Sim.world0))) = 2%nat /\
  llm_json (RT := Scenario.rt_intent_garbled)
           (call_messages (intent_call (JStr "I will renew today"))) 200 Sim.world0
  = (inl e, w1') /\
  nlu_intent (RT := Scenario.rt_intent_garbled) Scenario.intent_request Sim.world0
  = (inr (jsonify_with (error_body "NLU LLM error" "Expecting value") 500), w1').
Proof.
  intros text e w1 w1'.
  assert (H : llm_json (RT := Scenario.rt_retry) (parser_messages (JStr text))
                       600 Sim.world0 = (inl e, w1))
    by (vm_compute; reflexivity).
  assert (H' : llm_json (RT := Scenario.rt_intent_garbled)
                 (call_messages (intent_call (JStr "I will renew today")))
                 200 Sim.world0 = (inl e, w1'))
    by (vm_compute; reflexivity).
  destruct (retry_only_in_policy_extraction (RT := Scenario.rt_retry)
              text [] Sim.world0) as [Hretry _].
  destruct (Hretry e w1 H) as [Hcalls Hres].
  destruct (retry_only_in_policy_extraction (RT := Scenario.rt_intent_garbled)
              text [("text", JStr "I will renew today")] Sim.world0)
    as (_ & Hintent & _).
  destruct (Hintent e w1' eq_refl H') as [Hresp _].
  split; [ exact H | ]. split; [ | split; [ | split ] ].
  - rewrite Hres. vm_compute. reflexivity.
  - rewrite Hcalls. reflexivity.
  - exact H'.
  - exact Hresp.
Defined.

(** C3 as stated fails: the intent endpoint, given an answer that does not
    parse, answers 500 after that single call; no second call is made, though
    a second call would have been answered with a valid document. *)
Lemma intent_endpoint_gives_up_after_one_failure :
  exists details w',
    nlu_intent (RT := Scenario.rt_intent_garbled) Scenario.intent_request
               Sim.world0
    = (inr (jsonify_with (error_body "NLU LLM error" details) 500), w') /\
    length (llm_calls w') = 1%nat /\
    chat_completion (Runtime := Scenario.rt_intent_garbled) 1 (MODEL w')
                    (intent_call (JStr "I will renew today"))
    = Scenario.says default_nlu.
Proof.
  eexists _, _. split; [ vm_compute; reflexivity | ].
  split; reflexivity.
Qed.

(** *** The turn of the orchestrator *)

Section Turn.

Context {RT : Runtime}.

Lemma agent_turn_calls sid policy language user_text w :
  exists nlu sent,
    llm_calls (snd (agent_turn sid policy language user_text w))
    = llm_calls w
      ++ [intent_call user_text; sentiment_call user_text;
          decision_call (agent_user_prompt user_text (policy_context policy)
                                           nlu sent language)].
Proof.
  destruct (agent_turn_unrolled sid policy language user_text w)
    as (nlu & sent & D & _ & _ & _ & Hturn).
  cbn zeta in Hturn. exists nlu, sent. rewrite Hturn.
  destruct (quiet_finish_turn sid policy D
              (logged (logged (logged w (intent_call user_text))
                              (sentiment_call user_text))
                      (decision_call (agent_user_prompt user_text
                                        (policy_context policy) nlu sent language))))
    as [Hq _].
  rewrite Hq. cbn [logged llm_calls].
  rewrite <- !app_assoc. reflexivity.
Qed.

(** C9 (the code departs from it).  In every turn of the orchestrator,
    whatever the inputs and the outcome, the second [call_llm] is the
    sentiment classification, and the budget it passes is 80, not the 100 of
    the sentiment schema; the intent call before it passes 200 and the
    decision call after it 400. *)
Theorem orchestrator_sentiment_budget_is_80 sid policy language user_text w :
  exists c1 c2 c3,
    llm_calls (snd (agent_turn sid policy language user_text w))
    = llm_calls w ++ [c1; c2; c3] /\
    c2 = LlmCall [Message "system" (JStr SYSTEM_SENTIMENT_PROMPT);
                  Message "user" user_text] float_zero 80 /\
    call_max_tokens c1 = 200 /\
    call_max_tokens c2 <> 100 /\
    call_max_tokens c3 = 400.
Proof.
  destruct (agent_turn_calls sid policy language user_text w)
    as (nlu & sent & H).
  eexists _, _, _. split; [ exact H | ].
  repeat split. cbn. lia.
Qed.

(** C6.  In a turn, the intent step and the sentiment step always hand a
    value to the next step: the attempt's document, or, when the attempt
    failed (the call raised or its output did not parse), exactly the
    default: [{intent: out_of_scope, confidence: 0.5, entities: {}}] for the
    intent, [{sentiment: neutral, score: 0.5}] for the sentiment.  The
    decision call is then made, on the prompt that embeds those values. *)
Theorem orchestrator_defaults sid policy language user_text w :
  exists nlu sent,
    let w1 := logged w (intent_call user_text) in
    let w2 := logged w1 (sentiment_call user_text) in
    let prompt := agent_user_prompt user_text (policy_context policy)
                                    nlu sent language in
    intent_or_default user_text w = (inr nlu, w1) /\
    (forall e w', intent_attempt user_text w = (inl e, w') ->
                  nlu = JObj [("intent", JStr "out_of_scope");
                              ("confidence", JFloat float_half);
                              ("entities", JObj [])]) /\
    sentiment_or_default user_text w1 = (inr sent, w2) /\
    (forall e w', sentiment_attempt user_text w1 = (inl e, w') ->
                  sent = JObj [("sentiment", JStr "neutral");
                               ("score", JFloat float_half)]) /\
    llm_calls (snd (agent_turn sid policy language user_text w))
    = llm_calls w2 ++ [decision_call prompt].
Proof.
  destruct (intent_or_default_total user_text w) as (nlu & H1 & D1 & _).
  destruct (sentiment_or_default_total user_text
              (logged w (intent_call user_text))) as (sent & H2 & D2 & _).
  exists nlu, sent. cbn zeta. repeat split; auto.
  destruct (agent_turn_unrolled sid policy language user_text w)
    as (nlu' & sent' & D & H1' & H2' & _ & Hturn).
  cbn zeta in *. rewrite H1 in H1'. inversion H1'; subst nlu'.
  rewrite H2 in H2'. inversion H2'; subst sent'.
  rewrite Hturn.
  destruct (quiet_finish_turn sid policy D
              (logged (logged (logged w (intent_call user_text))
                              (sentiment_call user_text))
                      (decision_call (agent_user_prompt user_text
                                        (policy_context policy) nlu sent language))))
    as [Hq _].
  rewrite Hq. reflexivity.
Qed.

End Turn.

(** The scenario: the intent call raises, the sentiment answer is prose, the
    decision call is made on the two defaults. *)
Lemma orchestrator_defaults_witness :
  let user_text := JStr "hi" in
  let w1 := logged Sim.world0 (intent_call user_text) in
  let w2 := logged w1 (sentiment_call user_text) in
  intent_attempt (RT := Scenario.rt_degraded) user_text Sim.world0
  = (inl Sim.api_error, w1) /\
  sentiment_attempt (RT := Scenario.rt_degraded) user_text w1
  = (inl (Exn "JSONDecodeError" "Expecting value"), w2) /\
  llm_calls (snd (agent_turn (RT := Scenario.rt_degraded)
                             (JStr "s1") JNull (JStr "en") user_text Sim.world0))
  = [intent_call user_text; sentiment_call user_text;
     decision_call (agent_user_prompt (RT := Scenario.rt_degraded)
                      user_text "{}" default_nlu default_sent (JStr "en"))].
Proof.
  intros user_text w1 w2.
  assert (H1 : intent_attempt (RT := Scenario.rt_degraded) user_text Sim.world0
               = (inl Sim.api_error, w1)) by (vm_compute; reflexivity).
  assert (H2 : sentiment_attempt (RT := Scenario.rt_degraded) user_text w1
               = (inl (Exn "JSONDecodeError" "Expecting value"), w2))
    by (vm_compute; reflexivity).
  split; [ exact H1 | ]. split; [ exact H2 | ].
  destruct (orchestrator_defaults (RT := Scenario.rt_degraded)
              (JStr "s1") JNull (JStr "en") user_text Sim.world0)
    as (nlu & sent & _ & Hnlu & _ & Hsent & Hcalls).
  cbn zeta in *. fold w1 in Hsent.
  rewrite (Hnlu _ _ H1), (Hsent _ _ H2) in Hcalls.
  exact Hcalls.
Defined.

(* ===================================================================== *)
(** ** The agent's answer *)
(* ===================================================================== *)

Section Answer.

Context {RT : Runtime}.

(** What a [resolve_payment] that returned has done. *)
Lemma resolve_payment_inr policy D w out w' :
  resolve_payment policy D w = (inr out, w') ->
  exists kvs,
    D = JObj kvs /\
    ((py_eq_str (dict_get kvs "action" JNull) "initiate_payment" = true /\
      out = JObj (dict_set "action_payload"
                           (payment_record (uuid4 (uuid_count w))
                                           (resolved_amount policy D)) kvs) /\
      w' = drawn w)
     \/
     (py_eq_str (dict_get kvs "action" JNull) "initiate_payment" = false /\
      out = D /\ w' = w)).
Proof.
  intros H. destruct D as [ | b | z | x | s | l | kvs ];
    try (cbn in H; discriminate H).
  exists kvs. split; [ reflexivity | ].
  unfold resolve_payment in H. bind_inv H.
  destruct (py_eq_str _ _) eqn:Hact.
  - left. split; [ reflexivity | ].
    bind_inv H. bind_inv H.
    unfold resolved_amount. cbn [json_get].
    destruct (py_or (dict_get kvs "action_payload" JNull) (JObj []))
      as [ | b | z | x | s | l | payload ];
      try (cbn in Ha; discriminate Ha).
    unfold py_get, ret in Ha. inversion Ha; subst a w0; clear Ha.
    bind_inv H. cbn [json_get].
    assert (a = py_or (dict_get payload "amount" JNull)
                      (if truthy policy
                       then json_get policy "premium_amount" else JNull)
            /\ w0 = w) as [-> ->].
    { unfold py_or_else, py_or in *.
      destruct (truthy (dict_get payload "amount" JNull)).
      - inversion Ha; auto.
      - destruct (truthy policy).
        + destruct policy; cbn in Ha; try discriminate Ha; inversion Ha; auto.
        + inversion Ha; auto. }
    clear Ha. bind_inv H.
    unfold py_setitem, ret in H. inversion H; subst. auto.
  - right. inversion H; subst. auto.
Qed.

Lemma well_formed_decision_set_payload kvs v :
  well_formed_decision (JObj (dict_set "action_payload" v kvs))
  = well_formed_decision (JObj kvs).
Proof.
  unfold well_formed_decision.
  rewrite !dict_lookup_set_other by discriminate. reflexivity.
Qed.

(** A turn that answers, answers with what [resolve_payment] returned. *)
Lemma finish_turn_inr sid policy D w resp w' :
  finish_turn sid policy D w = (inr resp, w') ->
  exists out w1, resolve_payment policy D w = (inr out, w1) /\ resp = jsonify out.
Proof.
  unfold finish_turn. intros H. bind_inv H. bind_inv H. bind_inv H.
  inversion H; subst. eauto.
Qed.

(** A decision that is valid JSON but not an object stops the turn at
    line 354, whatever it is. *)
Lemma finish_turn_raises_on_non_object sid policy D w :
  (forall kvs, D <> JObj kvs) ->
  finish_turn sid policy D w = (inl (AttributeError D "get"), w).
Proof.
  intros H. destruct D; try reflexivity. exfalso. eapply H. reflexivity.
Qed.

(** What the handler did before the turn leaves the model API as it was. *)
Lemma agent_message_turn req w resp w' :
  agent_message req w = (inr resp, w') ->
  (truthy (request_field req "message" (JStr "")) = false /\
   resp = jsonify_with (JObj [("error", JStr "message required")]) 400)
  \/
  (truthy (request_field req "message" (JStr "")) = true /\
   exists sid policy w0,
     same_calls w w0 /\
     agent_turn sid policy (request_field req "language" (JStr "en"))
                (request_field req "message" (JStr "")) w0
     = (inr resp, w')).
Proof.
  unfold agent_message, request_field. intros H.
  destruct (py_or req (JObj [])) as [ | b | z | x | s | l | kvs ];
    try (cbn in H; discriminate H).
  bind_inv H. bind_inv H.
  assert (S1 : same_calls w w0).
  { refine (moves_run same_calls _ _ _ _ _ Ha). unfold py_or_else. quiet. }
  clear Ha. bind_inv H. bind_inv H. bind_inv H.
  destruct (truthy (dict_get kvs "message" (JStr ""))) eqn:Hmsg; cbn [negb] in H.
  - right. split; [ reflexivity | ].
    bind_inv H. bind_inv H.
    assert (S2 : same_calls w0 w1).
    { exact (moves_run same_calls _ _ _ _ (quiet_log_conversation _ _ _) Ha). }
    assert (S3 : same_calls w1 w2).
    { refine (moves_run same_calls _ _ _ _ _ Ha0).
      destruct (truthy (dict_get kvs "policy_number" JNull)).
      - apply quiet_get_policy_by_number.
      - apply (moves_ret _ same_calls_refl). }
    exists a, a1, w2. split; [ | exact H ].
    eapply same_calls_trans; [ exact S1 | ].
    eapply same_calls_trans; [ exact S2 | exact S3 ].
  - left. inversion H; subst. auto.
Qed.

(** C1 (amended).  When POST /v1/agent/message answers 200, its body is
    decided by the decision attempt, the third model call of the turn:
    - if that attempt fails (the call raises, or its output is not JSON), the
      body is the fixed fallback, whose reply is a string and whose action
      is [escalate_human];
    - if it returns a document [D], the body is [D] as the model gave it,
      [action_payload] alone being replaced when the action is
      [initiate_payment]; so the body has a string reply and an action of
      the enum exactly when [D] has them.
    Failures of the intent and sentiment calls change the prompt only. *)
Theorem agent_message_response_shape req w resp w' :
  agent_message req w = (inr resp, w') -> status resp = 200 ->
  let message := request_field req "message" (JStr "") in
  let language := request_field req "language" (JStr "en") in
  exists policy nlu sent,
    let prompt := agent_user_prompt message (policy_context policy)
                                    nlu sent language in
    let w2 := logged (logged w (intent_call message)) (sentiment_call message) in
    truthy message = true /\
    match fst (agent_attempt prompt w2) with
    | inl e =>
        body resp = fallback_decision language e /\
        well_formed_decision (body resp) = true
    | inr D =>
        well_formed_decision (body resp) = well_formed_decision D /\
        (py_eq_str (json_get D "action") "initiate_payment" = false ->
         body resp = D)
    end.
Proof.
  intros H Hs message language.
  destruct (agent_message_turn _ _ _ _ H) as [[_ ->] | [Hmsg Hturn]];
    [ cbn in Hs; discriminate Hs | ].
  destruct Hturn as (sid & policy & w0 & Hsame & Hturn).
  fold message language in Hturn.
  destruct (agent_turn_unrolled sid policy language message w0)
    as (nlu & sent & D & _ & _ & Hdec & Hun).
  cbn zeta in Hdec, Hun. rewrite Hun in Hturn. clear Hun.
  exists policy, nlu, sent. cbn zeta. split; [ exact Hmsg | ].
  set (prompt := agent_user_prompt message (policy_context policy)
                                   nlu sent language) in *.
  set (w2' := logged (logged w0 (intent_call message)) (sentiment_call message)) in *.
  assert (Hsame2 : same_calls
                     (logged (logged w (intent_call message))
                             (sentiment_call message)) w2').
  { destruct Hsame as (Hc & Hk & Hm). unfold w2', same_calls, logged; cbn.
    rewrite Hc, Hk, Hm. auto. }
  unfold agent_attempt.
  rewrite <- (llm_json_same_calls _ _ _ _ Hsame2).
  fold (agent_attempt prompt w2').
  destruct (agent_decision_total language prompt w2') as (D' & Hdec' & Hfail & Hok).
  rewrite Hdec in Hdec'. inversion Hdec'; subst D'; clear Hdec'.
  destruct (finish_turn_inr _ _ _ _ _ _ Hturn) as (out & w4 & Hres & ->).
  destruct (resolve_payment_inr _ _ _ _ _ Hres)
    as (kvs & HD & [(Hact & Hout & _) | (Hact & Hout & _)]).
  - (* the action is initiate_payment: not the fallback *)
    destruct (agent_attempt prompt w2') as [[e | v] w3] eqn:Hatt; cbn [fst].
    + rewrite (Hfail _ _ eq_refl) in HD. inversion HD; subst kvs.
      cbn in Hact. discriminate Hact.
    + rewrite <- (Hok _ _ eq_refl). subst D out. cbn [jsonify body].
      split; [ apply well_formed_decision_set_payload | ].
      cbn [json_get]. intros Hno. congruence.
  - subst out. cbn [jsonify body].
    destruct (agent_attempt prompt w2') as [[e | v] w3] eqn:Hatt; cbn [fst].
    + rewrite (Hfail _ _ eq_refl). split; reflexivity.
    + rewrite <- (Hok _ _ eq_refl). auto.
Qed.

(** C4 (amended).  From the decision [D] and the policy context [policy],
    when the action of [D] is [initiate_payment] and the handler answers:
    the body is [D] with [action_payload] overwritten by an object of
    exactly the keys [payment_id], [payment_link], [amount]; the id is
    [pay_] and the first 8 characters of a fresh uuid, the link is
    [https://mockpay.example/pay/] followed by the id; the amount is the
    action payload's amount when that is truthy, else the policy context's
    premium_amount when the context is truthy (null when it has none), else
    null. *)
Theorem initiate_payment_record sid policy D w resp w' :
  finish_turn sid policy D w = (inr resp, w') ->
  py_eq_str (json_get D "action") "initiate_payment" = true ->
  let payment_id := ("pay_" ++ substring 0 8 (uuid4 (uuid_count w)))%string in
  let payload := py_or (json_get D "action_payload") (JObj []) in
  let amount :=
    if truthy (json_get payload "amount") then json_get payload "amount"
    else if truthy policy then json_get policy "premium_amount"
    else JNull in
  exists kvs,
    D = JObj kvs /\
    status resp = 200 /\
    body resp
    = JObj (dict_set "action_payload"
              (JObj [("payment_id", JStr payment_id);
                     ("payment_link",
                      JStr ("https://mockpay.example/pay/" ++ payment_id)%string);
                     ("amount", amount)]) kvs).
Proof.
  intros H Hact payment_id payload amount.
  destruct (finish_turn_inr _ _ _ _ _ _ H) as (out & w1 & Hres & ->).
  destruct (resolve_payment_inr _ _ _ _ _ Hres)
    as (kvs & HD & [(_ & Hout & _) | (Hno & _)]).
  - exists kvs. subst D out. repeat split.
  - subst D. cbn [json_get] in Hact. congruence.
Qed.

(** The shape of the payment record, read off the response alone. *)
Lemma agent_message_payment_shape req w resp w' obj :
  agent_message req w = (inr resp, w') ->
  body resp = JObj obj ->
  dict_lookup "action" obj = Some (JStr "initiate_payment") ->
  exists u amount,
    dict_lookup "action_payload" obj = Some (payment_record u amount).
Proof.
  intros H Hb Hact.
  destruct (agent_message_turn _ _ _ _ H) as [[_ ->] | [_ Hturn]].
  - cbn in Hb. inversion Hb; subst obj. cbn in Hact. discriminate Hact.
  - destruct Hturn as (sid & policy & w0 & _ & Hturn).
    destruct (agent_turn_unrolled sid policy
                (request_field req "language" (JStr "en"))
                (request_field req "message" (JStr "")) w0)
      as (nlu & sent & D & _ & _ & _ & Hun).
    cbn zeta in Hun. rewrite Hun in Hturn.
    destruct (finish_turn_inr _ _ _ _ _ _ Hturn) as (out & w4 & Hres & ->).
    cbn [jsonify body] in Hb. subst out.
    destruct (resolve_payment_inr _ _ _ _ _ Hres)
      as (kvs & HD & [(_ & Hout & _) | (Hno & Hout & _)]).
    + inversion Hout; subst obj. eexists _, _. apply dict_lookup_set_same.
    + subst D. inversion Hout; subst obj.
      unfold dict_get in Hno. rewrite Hact in Hno. cbn in Hno. discriminate Hno.
Qed.

End Answer.

(** The scenario for the shape of the answer: no model call gets through,
    and the answer is the fallback. *)
Lemma agent_message_response_shape_witness :
  let run := agent_message (RT := Scenario.rt_idle) Scenario.hello Sim.world0 in
  run = (inr (jsonify (fallback_decision (JStr "en") Sim.api_error)), snd run) /\
  status (jsonify (fallback_decision (JStr "en") Sim.api_error)) = 200 /\
  well_formed_decision (fallback_decision (JStr "en") Sim.api_error) = true.
Proof.
  intros run.
  assert (H : agent_message (RT := Scenario.rt_idle) Scenario.hello Sim.world0
              = (inr (jsonify (fallback_decision (JStr "en") Sim.api_error)),
                 snd run))
    by (vm_compute; reflexivity).
  split; [ exact H | ]. split; [ reflexivity | ].
  destruct (agent_message_response_shape (RT := Scenario.rt_idle) _ _ _ _
                                         H eq_refl)
    as (policy & nlu & sent & _ & Hshape).
  cbn zeta in Hshape.
  change (fst (agent_attempt (RT := Scenario.rt_idle)
                 (agent_user_prompt (RT := Scenario.rt_idle)
                    (request_field Scenario.hello "message" (JStr ""))
                    (policy_context (RT := Scenario.rt_idle) policy) nlu sent
                    (request_field Scenario.hello "language" (JStr "en")))
                 (logged (logged Sim.world0
                            (intent_call (request_field Scenario.hello "message" (JStr ""))))
                         (sentiment_call (request_field Scenario.hello "message" (JStr ""))))))
    with (@inl exn json Sim.api_error) in Hshape.
  destruct Hshape as [_ Hwf]. exact Hwf.
Defined.

(** C1 as stated fails: the three model calls succeed, the decision is
    valid JSON whose action is not one of the seven, and the handler returns
    it as it is. *)
Lemma agent_answers_with_action_outside_enum :
  exists resp w',
    agent_message (RT := Scenario.rt_offbeat) Scenario.hello Sim.world0
    = (inr resp, w') /\
    status resp = 200 /\
    json_get (body resp) "action" = JStr "check_status" /\
    in_action_enum (json_get (body resp) "action") = false /\
    well_formed_decision (body resp) = false.
Proof.
  eexists _, _. split; [ vm_compute; reflexivity | ].
  repeat split.
Qed.

(** C2 (the code departs from it).  The message is not empty and the three
    model calls succeed, the third with the JSON document [[]]; the handler
    then raises AttributeError at line 354 ([agent_json.get]) and no
    response is built.  The user message is already logged. *)
Theorem agent_message_raises_on_array_decision :
  exists w',
    agent_message (RT := Scenario.rt_array) Scenario.hello Sim.world0
    = (inl (AttributeError (JArr []) "get"), w') /\
    truthy (request_field Scenario.hello "message" (JStr "")) = true /\
    Sim.loads (Sim.dumps (JArr [])) = inr (JArr []) /\
    length (llm_calls w') = 3%nat /\
    map c_role (conversations w') = ["user"%string].
Proof.
  eexists. split; [ vm_compute; reflexivity | ].
  repeat split.
Qed.

(** The scenario for the payment record: the decision names no amount, the
    policy context has a premium of 1200. *)
Lemma initiate_payment_record_witness :
  let run := finish_turn (RT := Scenario.rt_idle) (JStr "s1")
                         (JObj Scenario.policy_doc)
                         Scenario.payment_decision Sim.world0 in
  let resp :=
    jsonify
      (JObj [("reply", JStr "Here is your payment link.");
             ("language", JStr "en");
             ("action", JStr "initiate_payment");
             ("action_payload",
              JObj [("payment_id", JStr "pay_00000000");
                    ("payment_link",
                     JStr "https://mockpay.example/pay/pay_00000000");
                    ("amount", JInt 1200)])]) in
  run = (inr resp, snd run) /\
  py_eq_str (json_get Scenario.payment_decision "action") "initiate_payment"
  = true /\
  json_get (json_get (body resp) "action_payload") "amount" = JInt 1200.
Proof.
  intros run resp.
  assert (H : finish_turn (RT := Scenario.rt_idle) (JStr "s1")
                          (JObj Scenario.policy_doc)
                          Scenario.payment_decision Sim.world0
              = (inr resp, snd run))
    by (vm_compute; reflexivity).
  split; [ exact H | ]. split; [ reflexivity | ].
  destruct (initiate_payment_record (RT := Scenario.rt_idle) _ _ _ _ _ _
                                    H eq_refl)
    as (kvs & HD & _ & Hbody).
  inversion HD; subst kvs. rewrite Hbody. reflexivity.
Defined.

(** C4 as stated fails: the decision's payload carries the amount 0, there
    is no policy context, and the amount of the payment record is null, not
    the payload's amount. *)
Lemma payment_amount_zero_is_dropped :
  exists obj record w',
    agent_message (RT := Scenario.rt_zero_payment) Scenario.hello Sim.world0
    = (inr (jsonify (JObj obj)), w') /\
    dict_lookup "action" obj = Some (JStr "initiate_payment") /\
    dict_lookup "action_payload" obj = Some (JObj record) /\
    dict_lookup "amount" record = Some JNull /\
    json_get (json_get Scenario.zero_payment_decision "action_payload") "amount"
    = JInt 0 /\
    spec_amount JNull Scenario.zero_payment_decision = JInt 0.
Proof.
  eexists _, _, _. split; [ vm_compute; reflexivity | ].
  repeat split.
Qed.

(** End to end: the policy POL123 is parsed and stored, then a turn about it
    ends in a payment whose amount the model left out; the amount is the
    stored premium. *)
Example payment_from_stored_policy :
  let w1 := snd (parse_policy (RT := Scenario.rt_parse_then_pay)
                              Scenario.parse_request Sim.world0) in
  fst (agent_message (RT := Scenario.rt_parse_then_pay) Scenario.pay_request w1)
  = inr (jsonify
           (JObj [("reply", JStr "Here is your payment link.");
                  ("language", JStr "en");
                  ("action", JStr "initiate_payment");
                  ("action_payload",
                   JObj [("payment_id", JStr "pay_00000002");
                         ("payment_link",
                          JStr "https://mockpay.example/pay/pay_00000002");
                         ("amount", JInt 1200)])])).
Proof. vm_compute. reflexivity. Qed.

(** The budgets of the three calls of a turn, on a run. *)
Example budgets_of_a_turn :
  map call_max_tokens
      (llm_calls (snd (agent_message (RT := Scenario.rt_degraded)
                                     Scenario.hello Sim.world0)))
  = [200; 80; 400].
Proof. vm_compute. reflexivity. Qed.

(* ===================================================================== *)
(** ** The payment stub *)
(* ===================================================================== *)

(** The handler, computed on a request that is a JSON object. *)
Lemma payments_initiate_run {RT : Runtime} (kvs : list (string * json)) (w : world) :
  payments_initiate (JObj kvs) w
  = (if truthy (dict_get kvs "amount" JNull)
     then (inr (jsonify (JObj [("id", JStr ("pay_" ++ substring 0 8 (uuid4 (uuid_count w)))%string);
                               ("payment_link",
                                JStr ("https://mockpay.example/pay/"
                                      ++ ("pay_" ++ substring 0 8 (uuid4 (uuid_count w))))%string)])),
           drawn w)
     else (inr (jsonify_with (JObj [("error", JStr "amount required")]) 400), w)).
Proof.
  unfold payments_initiate.
  replace (py_or (JObj kvs) (JObj [])) with (JObj kvs)
    by (destruct kvs; reflexivity).
  cbn [py_get]. unfold bind at 1. unfold ret at 1.
  unfold bind at 1. unfold ret at 1.
  destruct (truthy (dict_get kvs "amount" JNull)); reflexivity.
Qed.

(** C7 (amended).  On a request that is a JSON object, POST
    /v1/payments/initiate always answers, with 400 exactly when [amount] is
    falsy (absent or null, but also [0], [0.0], [false], the empty string,
    list or object) and with 200 exactly when it is truthy.  On a truthy
    amount the body is an id made of [pay_] and the first 8 characters of a
    fresh uuid, and the link [https://mockpay.example/pay/] followed by that
    id.  Neither table is touched. *)
Theorem payments_initiate_on_truthy_amount
        {RT : Runtime} (kvs : list (string * json)) (w : world) :
  let amount := dict_get kvs "amount" JNull in
  let payment_id := ("pay_" ++ substring 0 8 (uuid4 (uuid_count w)))%string in
  exists resp w',
    payments_initiate (JObj kvs) w = (inr resp, w') /\
    (status resp = 400 <-> truthy amount = false) /\
    (status resp = 200 <-> truthy amount = true) /\
    (truthy amount = true ->
     body resp
     = JObj [("id", JStr payment_id);
             ("payment_link",
              JStr ("https://mockpay.example/pay/" ++ payment_id)%string)]) /\
    policies w' = policies w /\
    conversations w' = conversations w.
Proof.
  intros amount payment_id.
  pose proof (payments_initiate_run kvs w) as E. fold amount in E.
  destruct (truthy amount) eqn:Ht; eexists _, _; (split; [ exact E | ]); cbn.
  - repeat split; intros H; first [ reflexivity | discriminate H ].
  - repeat split; intros H; first [ reflexivity | discriminate H ].
Qed.

(** The request of the specification's example: amount 500. *)
Lemma payments_initiate_on_truthy_amount_witness :
  truthy (dict_get [("policy_number", JStr "POL123"); ("amount", JInt 500)]
                   "amount" JNull) = true /\
  exists w',
    payments_initiate (RT := Scenario.rt_idle) Scenario.pay_500 Sim.world0
    = (inr (jsonify
              (JObj [("id", JStr "pay_00000000");
                     ("payment_link",
                      JStr "https://mockpay.example/pay/pay_00000000")])),
       w').
Proof.
  split; [ reflexivity | ].
  destruct (payments_initiate_on_truthy_amount (RT := Scenario.rt_idle)
              [("policy_number", JStr "POL123"); ("amount", JInt 500)]
              Sim.world0)
    as (resp & w' & Hrun & _ & Hok & Hbody & _).
  exists w'. 
  destruct resp as [st b]. cbn [status body] in *.
  destruct Hok as [_ Hok]. rewrite (Hok eq_refl), (Hbody eq_refl) in Hrun.
  exact Hrun.
Defined.

(** C7 as stated fails: the amount 0 is not null, and the answer is 400. *)
Lemma payment_of_zero_is_refused :
  dict_lookup "amount" [("amount", JInt 0)] = Some (JInt 0) /\
  JInt 0 <> JNull /\
  payments_initiate (RT := Scenario.rt_idle) Scenario.pay_0 Sim.world0
  = (inr (Response 400 (JObj [("error", JStr "amount required")])), Sim.world0).
Proof.
  split; [ reflexivity | ]. split; [ discriminate | ].
  vm_compute. reflexivity.
Qed.

(* ===================================================================== *)
(** ** Which endpoint writes which table *)
(* ===================================================================== *)

Lemma same_policies_refl w : same_policies w w.
Proof. reflexivity. Qed.

Lemma same_policies_trans w1 w2 w3 :
  same_policies w1 w2 -> same_policies w2 w3 -> same_policies w1 w3.
Proof. unfold same_policies. congruence. Qed.

Lemma same_conversations_refl w : same_conversations w w.
Proof. reflexivity. Qed.

Lemma same_conversations_trans w1 w2 w3 :
  same_conversations w1 w2 -> same_conversations w2 w3 ->
  same_conversations w1 w3.
Proof. unfold same_conversations. congruence. Qed.

Lemma same_tables_policies {A} (c : M A) :
  moves same_tables c -> moves same_policies c.
Proof. intros H w. apply H. Qed.

Lemma same_tables_conversations {A} (c : M A) :
  moves same_tables c -> moves same_conversations c.
Proof. intros H w. apply H. Qed.

Section Writers.

Context {RT : Runtime}.

Lemma conversations_kept_by_save_policy parsed :
  moves same_conversations (save_policy parsed).
Proof.
  unfold save_policy.
  repeat first
    [ moves_step same_conversations_refl same_conversations_trans
    | apply same_tables_conversations;
      first [ apply same_uuid4_str | apply same_utcnow_isoformat ]
    | (intros ?; unfold insert_policy; destruct (existsb _ _); reflexivity) ].
Qed.

Lemma policies_kept_by_log_conversation sid r m :
  moves same_policies (log_conversation sid r m).
Proof.
  unfold log_conversation.
  repeat first
    [ moves_step same_policies_refl same_policies_trans
    | apply same_tables_policies;
      first [ apply same_uuid4_str | apply same_utcnow_isoformat ]
    | (intros ?; unfold insert_conversation; destruct (existsb _ _);
       reflexivity) ].
Qed.

Lemma conversations_kept_by_parse_policy req :
  moves same_conversations (parse_policy req).
Proof.
  unfold parse_policy.
  repeat first
    [ moves_step same_conversations_refl same_conversations_trans
    | apply same_tables_conversations, same_extract_policy
    | apply conversations_kept_by_save_policy ].
Qed.

Lemma policies_kept_by_agent_message req :
  moves same_policies (agent_message req).
Proof.
  unfold agent_message, agent_turn, finish_turn.
  repeat first
    [ moves_step same_policies_refl same_policies_trans
    | apply policies_kept_by_log_conversation
    | apply same_tables_policies;
      first [ apply same_uuid4_str
            | apply same_get_policy_by_number
            | apply same_intent_or_default
            | apply same_sentiment_or_default
            | apply same_agent_decision
            | apply same_resolve_payment ] ].
Qed.

(** X1.  Each table has one writer: POST /v1/policy/parse is the only
    endpoint that changes [policies] and it never changes [conversations];
    POST /v1/agent/message is the only one that changes [conversations] and
    it never changes [policies]; the five other endpoints leave both tables
    exactly as they were.  This holds for every request and every outcome. *)
Theorem one_writer_per_table (ep : endpoint) (req : json) (w : world) :
  let w' := snd (dispatch ep req w) in
  match ep with
  | PolicyParse => conversations w' = conversations w
  | AgentMessage => policies w' = policies w
  | _ => policies w' = policies w /\ conversations w' = conversations w
  end.
Proof.
  destruct ep; cbn [dispatch].
  - apply conversations_kept_by_parse_policy.
  - apply same_nlu_intent.
  - apply same_nlu_sentiment.
  - apply policies_kept_by_agent_message.
  - apply same_payments_initiate.
  - apply same_notify_sms.
  - apply same_health.
Qed.

End Writers.

(* ===================================================================== *)
(** ** What is sent to the model, and how often *)
(* ===================================================================== *)

Lemma adds_calls_refl n w : adds_calls n w w.
Proof.
  exists []. rewrite app_nil_r. repeat split; [ cbn; lia | constructor ].
Qed.

Lemma adds_calls_trans n m w1 w2 w3 :
  adds_calls n w1 w2 -> adds_calls m w2 w3 -> adds_calls (n + m) w1 w3.
Proof.
  intros (c1 & H1 & L1 & F1) (c2 & H2 & L2 & F2).
  exists (c1 ++ c2). repeat split.
  - rewrite H2, H1, app_assoc. reflexivity.
  - rewrite length_app. lia.
  - apply Forall_app. split; assumption.
Qed.

Lemma adds_calls_weaken n m w w' :
  (n <= m)%nat -> adds_calls n w w' -> adds_calls m w w'.
Proof. intros Hle (cs & H & L & F). exists cs. repeat split; auto. lia. Qed.

Lemma adds_calls_of_same n w w' : same_calls w w' -> adds_calls n w w'.
Proof.
  intros (H & _). exists []. rewrite app_nil_r.
  repeat split; [ exact H | cbn; lia | constructor ].
Qed.

Section Spending.

Context {RT : Runtime}.

Lemma spends_of_quiet n {A} (c : M A) : moves same_calls c -> spends n c.
Proof. intros H w. apply adds_calls_of_same, H. Qed.

Lemma spends_ret n {A} (a : A) : spends n (ret a).
Proof. intros w. apply adds_calls_refl. Qed.

Lemma spends_bind n m {A B} (c : M A) (k : A -> M B) :
  spends n c -> (forall a, spends m (k a)) -> spends (n + m) (bind c k).
Proof.
  intros Hc Hk w. unfold bind. specialize (Hc w).
  destruct (c w) as [[e | a] w1]; cbn [snd] in *.
  - eapply adds_calls_weaken; [ | exact Hc ]. lia.
  - eapply adds_calls_trans; [ exact Hc | apply Hk ].
Qed.

Lemma spends_try_except n m {A} (c : M A) (h : exn -> M A) :
  spends n c -> (forall e, spends m (h e)) -> spends (n + m) (try_except c h).
Proof.
  intros Hc Hh w. unfold try_except. specialize (Hc w).
  destruct (c w) as [[e | a] w1]; cbn [snd] in *.
  - eapply adds_calls_trans; [ exact Hc | apply Hh ].
  - eapply adds_calls_weaken; [ | exact Hc ]. lia.
Qed.

(** One attempt with a template and a budget that go together. *)
Lemma spends_llm_json sys user budget :
  In (sys, budget) prompt_budgets ->
  spends 1 (llm_json [Message "system" (JStr sys); Message "user" user] budget).
Proof.
  intros Hin w. rewrite llm_json_world.
  exists [LlmCall [Message "system" (JStr sys); Message "user" user]
                  float_zero budget].
  repeat split; [ cbn; lia | ].
  constructor; [ | constructor ].
  split; [ reflexivity | ]. exists sys, user. split; [ reflexivity | exact Hin ].
Qed.

(** A step that makes no call, in front of the rest. *)
Lemma spends_after_quiet n {A B} (c : M A) (k : A -> M B) :
  moves same_calls c -> (forall a, spends n (k a)) -> spends n (bind c k).
Proof.
  intros Hc Hk. change n with (0 + n)%nat.
  apply spends_bind; [ apply spends_of_quiet, Hc | exact Hk ].
Qed.

(** A step that may call, followed by steps that do not. *)
Lemma spends_before_quiet n {A B} (c : M A) (k : A -> M B) :
  spends n c -> (forall a, moves same_calls (k a)) -> spends n (bind c k).
Proof.
  intros Hc Hk. replace n with (n + 0)%nat by lia.
  apply spends_bind; [ exact Hc | intros a; apply spends_of_quiet, Hk ].
Qed.

Lemma quiet_py_or_else a (b : M json) :
  moves same_calls b -> moves same_calls (py_or_else a b).
Proof. apply (moves_py_or_else _ same_calls_refl). Qed.

Lemma spends_extract_policy text : spends 2 (extract_policy text).
Proof.
  unfold extract_policy. change 2%nat with (1 + 1)%nat.
  apply spends_try_except.
  - apply spends_before_quiet.
    + apply spends_llm_json. cbn. auto.
    + intros parsed. apply (moves_ret _ same_calls_refl).
  - intros e. change 1%nat with (1 + 0)%nat.
    apply spends_try_except; [ | intros e2; apply spends_ret ].
    apply spends_after_quiet; [ apply (moves_py_str_add _ same_calls_refl) | ].
    intros content. apply spends_before_quiet.
    + apply spends_llm_json. cbn. auto.
    + intros parsed. apply (moves_ret _ same_calls_refl).
Qed.

Lemma spends_parse_policy req : spends 2 (parse_policy req).
Proof.
  unfold parse_policy.
  apply spends_after_quiet; [ apply (moves_py_get _ same_calls_refl) | intros t ].
  apply spends_after_quiet.
  { apply quiet_py_or_else. quiet. }
  intros text. destruct (negb (truthy text)); [ apply spends_ret | ].
  apply spends_before_quiet; [ apply spends_extract_policy | ].
  intros [resp | parsed]; [ apply (moves_ret _ same_calls_refl) | ].
  quiet. apply quiet_save_policy.
Qed.

(** The two classification endpoints have the same shape. *)
Lemma spends_single_attempt sys budget label text :
  In (sys, budget) prompt_budgets ->
  spends 1
    (bind (try_except
             (parsed <- llm_json [Message "system" (JStr sys);
                                  Message "user" text] budget ;;
              ret (inr parsed))
             (fun e => ret (inl (jsonify_with
                                   (JObj [("error", JStr label);
                                          ("details", JStr (str_exn e))]) 500))))
          (fun r : response + json =>
             match r with
             | inl resp => ret resp
             | inr parsed => ret (jsonify parsed)
             end)).
Proof.
  intros Hin. apply spends_before_quiet.
  - change 1%nat with (1 + 0)%nat. apply spends_try_except.
    + apply spends_before_quiet; [ apply spends_llm_json, Hin | ].
      intros parsed. apply (moves_ret _ same_calls_refl).
    + intros e. apply spends_ret.
  - intros [resp | parsed]; apply (moves_ret _ same_calls_refl).
Qed.

Lemma spends_nlu_intent req : spends 1 (nlu_intent req).
Proof.
  unfold nlu_intent.
  apply spends_after_quiet; [ apply (moves_py_get _ same_calls_refl) | intros t ].
  destruct (negb (truthy t)); [ apply spends_ret | ].
  apply spends_single_attempt. cbn. auto.
Qed.

Lemma spends_nlu_sentiment req : spends 1 (nlu_sentiment req).
Proof.
  unfold nlu_sentiment.
  apply spends_after_quiet; [ apply (moves_py_get _ same_calls_refl) | intros t ].
  destruct (negb (truthy t)); [ apply spends_ret | ].
  apply spends_single_attempt. cbn. auto 6.
Qed.

Lemma spends_agent_turn sid policy language user_text :
  spends 3 (agent_turn sid policy language user_text).
Proof.
  unfold agent_turn. change 3%nat with (1 + (1 + 1))%nat.
  apply spends_bind.
  { unfold intent_or_default, intent_attempt. change 1%nat with (1 + 0)%nat.
    apply spends_try_except; [ | intros e; apply spends_ret ].
    apply spends_llm_json. cbn. auto. }
  intros nlu. apply spends_bind.
  { unfold sentiment_or_default, sentiment_attempt. change 1%nat with (1 + 0)%nat.
    apply spends_try_except; [ | intros e; apply spends_ret ].
    apply spends_llm_json. cbn. auto 6. }
  intros sent. apply spends_before_quiet.
  { unfold agent_decision, agent_attempt. change 1%nat with (1 + 0)%nat.
    apply spends_try_except; [ | intros e; apply spends_ret ].
    apply spends_llm_json. cbn. auto 8. }
  intros D. apply quiet_finish_turn.
Qed.

Lemma spends_agent_message req : spends 3 (agent_message req).
Proof.
  unfold agent_message.
  apply spends_after_quiet; [ apply (moves_py_get _ same_calls_refl) | intros sid ].
  apply spends_after_quiet.
  { apply quiet_py_or_else. quiet. }
  intros session_id.
  apply spends_after_quiet; [ apply (moves_py_get _ same_calls_refl) | intros pn ].
  apply spends_after_quiet; [ apply (moves_py_get _ same_calls_refl) | intros lang ].
  apply spends_after_quiet; [ apply (moves_py_get _ same_calls_refl) | intros msg ].
  destruct (negb (truthy msg)); [ apply spends_ret | ].
  apply spends_after_quiet; [ apply quiet_log_conversation | intros _ ].
  apply spends_after_quiet.
  { destruct (truthy pn);
      [ apply quiet_get_policy_by_number | apply (moves_ret _ same_calls_refl) ]. }
  intros policy. apply spends_agent_turn.
Qed.

Lemma quiet_payments_initiate req : moves same_calls (payments_initiate req).
Proof. unfold payments_initiate. quiet. Qed.

Lemma quiet_notify_sms req : moves same_calls (notify_sms req).
Proof. unfold notify_sms. quiet. Qed.

Lemma quiet_health req : moves same_calls (health req).
Proof. unfold health. quiet. Qed.

(** X2.  Whatever the endpoint, the request and the outcome, one request
    makes at most three [call_llm] invocations (two for a parse, one for a
    classification, three for an agent turn, none for the payment, SMS and
    health endpoints), and every invocation it makes has temperature 0.0, a
    system message holding one of the file's four prompt templates followed
    by a single user message, and the budget written next to that template
    in the source (600, 200, 100 or 80, 400). *)
Theorem calls_per_request (ep : endpoint) (req : json) (w : world) :
  exists cs,
    llm_calls (snd (dispatch ep req w)) = llm_calls w ++ cs /\
    (length cs <= calls_budget ep)%nat /\
    (calls_budget ep <= 3)%nat /\
    Forall endpoint_call cs.
Proof.
  assert (H : adds_calls (calls_budget ep) w (snd (dispatch ep req w))).
  { destruct ep; cbn [dispatch calls_budget].
    - apply spends_parse_policy.
    - apply spends_nlu_intent.
    - apply spends_nlu_sentiment.
    - apply spends_agent_message.
    - apply spends_of_quiet, quiet_payments_initiate.
    - apply spends_of_quiet, quiet_notify_sms.
    - apply spends_of_quiet, quiet_health. }
  destruct H as (cs & Hc & Hl & Hf). exists cs. repeat split; auto.
  destruct ep; cbn; lia.
Qed.

End Spending.

(* ===================================================================== *)
(** ** Storing and finding policies *)
(* ===================================================================== *)

Lemma sqlite_bind_bindable {RT : Runtime} i v :
  bindable v = true -> sqlite_bind i v = inr (bound v).
Proof.
  destruct v as [ | b | z | f | s | l | kvs ];
    cbn [sqlite_bind bindable bound]; intros H;
    try reflexivity; try discriminate H.
  - rewrite H. reflexivity.
  - destruct (has_surrogate s); [ discriminate H | reflexivity ].
Qed.


Lemma find_app_matched {A} (f : A -> bool) (l1 l2 : list A) x :
  find f l1 = Some x -> find f (l1 ++ l2) = Some x.
Proof.
  induction l1 as [ | y l1 IH ]; cbn; [ discriminate | ].
  destruct (f y); [ auto | exact IH ].
Qed.

Section Policies.

Context {RT : Runtime}.

(** A [save_policy] that raises has stored nothing. *)
Lemma save_policy_inl parsed w e w' :
  save_policy parsed w = (inl e, w') -> policies w' = policies w.
Proof.
  destruct parsed as [ | b | z | x | s | l | kvs ];
    try (cbn; intros H; inversion H; reflexivity).
  unfold save_policy, insert_policy, lift, uuid4_str, utcnow_isoformat, py_get,
    bind, ret, raise.
  cbn [policies p_id].
  repeat match goal with
         | |- context [match sqlite_bind ?i ?v with inl _ => _ | inr _ => _ end] =>
             destruct (sqlite_bind i v)
         end;
    try (intros H; inversion H; reflexivity).
  destruct (existsb _ _); intros H; inversion H; reflexivity.
Qed.

Lemma sqlite_bind_inr_bindable i v x :
  sqlite_bind i v = inr x -> bindable v = true /\ x = bound v.
Proof.
  destruct v as [ | b | z | f | s | l | kvs ]; cbn [sqlite_bind bindable bound];
    intros H.
  - split; [ reflexivity | congruence ].
  - split; [ reflexivity | congruence ].
  - destruct ((- 2 ^ 63 <=? z) && (z <? 2 ^ 63)); [ | discriminate H ].
    split; [ reflexivity | congruence ].
  - split; [ reflexivity | congruence ].
  - destruct (has_surrogate s); [ discriminate H | ].
    split; [ reflexivity | congruence ].
  - discriminate H.
  - discriminate H.
Qed.


(** [parse_policy] from the extraction on, for a request whose text is
    truthy. *)
Lemma parse_policy_run req w :
  (exists kvs, py_or req (JObj []) = JObj kvs) ->
  truthy (request_text req) = true ->
  parse_policy req w
  = bind (extract_policy (request_text req))
         (fun r : response + json =>
            match r with
            | inl resp => ret resp
            | inr parsed =>
                pid <- save_policy parsed ;;
                parsed' <- py_setitem parsed "_db_id" (JStr pid) ;;
                ret (jsonify parsed')
            end) w.
Proof.
  intros [kvs Hb] Ht. unfold parse_policy, request_text in *. rewrite Hb in *.
  cbn [py_get json_get] in *. unfold bind at 1. unfold ret at 1.
  unfold py_or_else, py_or in *.
  destruct (truthy (dict_get kvs "text" JNull)) eqn:E1.
  - unfold bind at 1. unfold ret at 1. rewrite Ht. reflexivity.
  - unfold bind at 1. unfold bind at 1. unfold ret at 1.
    destruct (truthy (dict_get kvs "file_url" JNull)) eqn:E2;
      unfold ret at 1; rewrite Ht; reflexivity.
Qed.

Lemma parse_policy_without_text req w :
  (exists kvs, py_or req (JObj []) = JObj kvs) ->
  truthy (request_text req) = false ->
  parse_policy req w = (inr text_required, w).
Proof.
  intros [kvs Hb] Ht. unfold parse_policy, request_text in *. rewrite Hb in *.
  cbn [py_get json_get] in *. unfold bind at 1. unfold ret at 1.
  unfold py_or_else, py_or in *.
  destruct (truthy (dict_get kvs "text" JNull)) eqn:E1.
  - unfold bind at 1. unfold ret at 1. rewrite Ht. reflexivity.
  - unfold bind at 1. unfold bind at 1. unfold ret at 1.
    destruct (truthy (dict_get kvs "file_url" JNull)) eqn:E2;
      unfold ret at 1; rewrite Ht; reflexivity.
Qed.

Lemma parse_policy_bad_body req w :
  (forall kvs, py_or req (JObj []) <> JObj kvs) ->
  parse_policy req w = (inl (AttributeError (py_or req (JObj [])) "get"), w).
Proof.
  intros Hb. unfold parse_policy.
  destruct (py_or req (JObj [])); try reflexivity.
  exfalso. eapply Hb. reflexivity.
Qed.

(** The extraction has its own [except] for everything. *)
Lemma extract_policy_never_raises text w :
  exists r w1, extract_policy text w = (inr r, w1).
Proof.
  unfold extract_policy, try_except.
  destruct (bind _ _ w) as [[e | a] w1]; [ | eexists _, _; reflexivity ].
  destruct (bind _ _ w1) as [[e2 | a2] w2]; eexists _, _; reflexivity.
Qed.

(** X4.  POST /v1/policy/parse stores a row exactly when it answers 200: on
    a 200 the table has one more row, and on every other outcome (a 400, a
    500, or an exception raised while reading the request or saving) the
    table is as it was. *)
Theorem parse_stores_iff_200 (req : json) (w : world) :
  match parse_policy req w with
  | (inr resp, w') =>
      (status resp = 200 /\ exists row, policies w' = policies w ++ [row]) \/
      ((status resp = 400 \/ status resp = 500) /\ policies w' = policies w)
  | (inl e, w') => policies w' = policies w
  end.
Proof.
  destruct (py_or req (JObj [])) as [ | b | z | x | s | l | kvs ] eqn:Hb;
    try (rewrite parse_policy_bad_body by (rewrite Hb; discriminate);
         reflexivity).
  assert (Hbody : exists kvs, py_or req (JObj []) = JObj kvs) by eauto.
  destruct (truthy (request_text req)) eqn:Ht.
  - rewrite (parse_policy_run _ _ Hbody Ht).
    destruct (extract_policy_never_raises (request_text req) w) as (r & w1 & Hx).
    pose proof (moves_run same_tables _ _ _ _ (same_extract_policy _) Hx)
      as [Hp _].
    rewrite (bind_step _ _ _ _ _ Hx).
    destruct r as [resp | parsed].
    + unfold ret. right. rewrite (extract_policy_inl _ _ _ _ Hx). auto.
    + destruct (save_policy parsed w1) as [[e | pid] w2] eqn:Hs.
      * rewrite (bind_fail _ _ _ _ _ Hs).
        rewrite (save_policy_inl _ _ _ _ Hs). exact Hp.
      * rewrite (bind_step _ _ _ _ _ Hs).
        destruct (save_policy_inr _ _ _ _ Hs)
          as (P & row & -> & _ & _ & _ & _ & _ & Hpol & _).
        cbn [py_setitem]. unfold bind, ret. left. split; [ reflexivity | ].
        exists row. rewrite Hpol, Hp. reflexivity.
  - rewrite (parse_policy_without_text _ _ Hbody Ht). right. cbn. auto.
Qed.

(** [get_policy_by_number], computed on a parameter that binds. *)
Lemma get_policy_by_number_run pn v w :
  sqlite_bind 0 pn = inr v ->
  get_policy_by_number pn w
  = (match find (matches RT v) (policies w) with
     | Some r => json_loads (p_raw_parse r)
     | None => inr JNull
     end, w).
Proof.
  intros Hb. unfold get_policy_by_number, select_raw_parse, matches.
  rewrite Hb. cbn [lift]. unfold bind at 1. unfold ret at 1. unfold bind.
  destruct (find _ (policies w)) as [r | ]; cbn [option_map]; [ | reflexivity ].
  destruct (json_loads (p_raw_parse r)); reflexivity.
Qed.

(** X5.  When several rows carry the policy number asked for, the lookup
    answers with the earliest inserted one: whatever was stored after the
    first matching row, re-parsed versions of the same policy included, is
    never returned.  The world is not changed. *)
Theorem lookup_returns_first_match pn v w before row after :
  sqlite_bind 0 pn = inr v ->
  policies w = before ++ row :: after ->
  (forall r, In r before -> matches RT v r = false) ->
  matches RT v row = true ->
  get_policy_by_number pn w = (json_loads (p_raw_parse row), w).
Proof.
  intros Hb Hp Hbefore Hrow.
  rewrite (get_policy_by_number_run _ _ _ Hb), Hp.
  rewrite (find_app_unmatched _ _ _ Hbefore). cbn [find]. rewrite Hrow.
  reflexivity.
Qed.

(** X6.  A policy number that no stored row carries is not an error: the
    lookup returns [None] and changes nothing.  A NULL never matches, so a
    row stored without a policy number is found by no lookup. *)
Theorem lookup_without_match_is_none pn v w :
  sqlite_bind 0 pn = inr v ->
  (v = SNull \/ forall r, In r (policies w) -> matches RT v r = false) ->
  get_policy_by_number pn w = (inr JNull, w).
Proof.
  intros Hb Hno. rewrite (get_policy_by_number_run _ _ _ Hb).
  assert (Hall : forall r, In r (policies w) -> matches RT v r = false).
  { destruct Hno as [-> | H]; [ | exact H ].
    intros r _. unfold matches, sql_eq_text.
    destruct (text_affinity (p_policy_number r)); reflexivity. }
  destruct (find _ (policies w)) as [r | ] eqn:E; [ | reflexivity ].
  apply find_some in E. destruct E as [Hin Hm].
  rewrite (Hall r Hin) in Hm. discriminate Hm.
Qed.

Lemma dispatch_extends ep req w : extends w (snd (dispatch ep req w)).
Proof.
  destruct ep; cbn [dispatch].
  - apply grows_parse_policy.
  - apply same_tables_extends, same_nlu_intent.
  - apply same_tables_extends, same_nlu_sentiment.
  - apply grows_agent_message.
  - apply same_tables_extends, same_payments_initiate.
  - apply same_tables_extends, same_notify_sms.
  - apply same_tables_extends, same_health.
Qed.

(** X7.  Once some stored row carries a policy number, no request to any
    endpoint changes what the lookup of that number returns: parsing the
    same policy again adds a row but the lookup keeps answering with the
    old one. *)
Theorem lookup_is_stable ep req pn v w :
  sqlite_bind 0 pn = inr v ->
  (exists r, In r (policies w) /\ matches RT v r = true) ->
  fst (get_policy_by_number pn (snd (dispatch ep req w)))
  = fst (get_policy_by_number pn w).
Proof.
  intros Hb (r & Hin & Hm).
  rewrite !(get_policy_by_number_run _ _ _ Hb). cbn [fst].
  destruct (dispatch_extends ep req w) as [[ps Hp] _]. rewrite Hp.
  destruct (find (matches RT v) (policies w)) as [r0 | ] eqn:E.
  - rewrite (find_app_matched _ _ _ _ E). reflexivity.
  - exfalso. pose proof (find_none _ _ E r Hin) as Hn. congruence.
Qed.

(** X8.  When the parser's answer is valid JSON but not an object (an array,
    a string, a number, null), POST /v1/policy/parse raises AttributeError
    from [save_policy]: no response is built, nothing is stored, and one
    uuid has been drawn. *)
Theorem parse_raises_on_non_object_document req w P w1 :
  (exists kvs, py_or req (JObj []) = JObj kvs) ->
  truthy (request_text req) = true ->
  extract_policy (request_text req) w = (inr (inr P), w1) ->
  (forall kvs, P <> JObj kvs) ->
  parse_policy req w = (inl (AttributeError P "get"), drawn w1) /\
  policies (drawn w1) = policies w.
Proof.
  intros Hb Ht Hx HP.
  pose proof (moves_run same_tables _ _ _ _ (same_extract_policy _) Hx) as [Hp _].
  split; [ | exact Hp ].
  rewrite (parse_policy_run _ _ Hb Ht), (bind_step _ _ _ _ _ Hx).
  destruct P; try reflexivity. exfalso. eapply HP. reflexivity.
Qed.

End Policies.


(** The scenario for the lookups: POL123 is parsed twice, the second time
    with another premium; the lookup answers with the first version. *)
Lemma lookup_returns_first_match_witness :
  sqlite_bind 0 (JStr "POL123")
  = inr (SText "POL123") /\
  (exists first second,
     policies Scenario2.world_two_versions = [] ++ first :: [second] /\
     matches Scenario2.rt_parse_twice (SText "POL123") first = true /\
     matches Scenario2.rt_parse_twice (SText "POL123") second = true) /\
  get_policy_by_number (RT := Scenario2.rt_parse_twice) (JStr "POL123")
                       Scenario2.world_two_versions
  = (inr (JObj Scenario.policy_doc), Scenario2.world_two_versions).
Proof.
  assert (Hp : exists first second,
             policies Scenario2.world_two_versions = [] ++ first :: [second] /\
             matches Scenario2.rt_parse_twice (SText "POL123") first = true /\
             matches Scenario2.rt_parse_twice (SText "POL123") second = true).
  { eexists _, _. split; [ vm_compute; reflexivity | ].
    split; reflexivity. }
  split; [ reflexivity | ]. split; [ exact Hp | ].
  destruct Hp as (first & second & Hp & Hm & _).
  rewrite (lookup_returns_first_match (RT := Scenario2.rt_parse_twice)
             (JStr "POL123") (SText "POL123") Scenario2.world_two_versions
             [] first [second]
             eq_refl Hp (fun r (H : In r []) => match H with end) Hm).
  assert (Hraw : p_raw_parse first
                 = json_dumps (Runtime := Scenario2.rt_parse_twice)
                              (JObj Scenario.policy_doc)).
  { vm_compute in Hp. injection Hp as <- _. vm_compute. reflexivity. }
  rewrite Hraw. vm_compute. reflexivity.
Defined.

Lemma lookup_without_match_is_none_witness :
  sqlite_bind 0 (JStr "POL999")
  = inr (SText "POL999") /\
  (forall r, In r (policies Scenario.parse_world1) ->
             matches Scenario.rt_parse (SText "POL999") r = false) /\
  get_policy_by_number (RT := Scenario.rt_parse) (JStr "POL999")
                       Scenario.parse_world1
  = (inr JNull, Scenario.parse_world1).
Proof.
  assert (Hno : forall r, In r (policies Scenario.parse_world1) ->
                          matches Scenario.rt_parse (SText "POL999") r = false).
  { intros r Hin. vm_compute in Hin.
    destruct Hin as [<- | []]. reflexivity. }
  split; [ reflexivity | ]. split; [ exact Hno | ].
  exact (lookup_without_match_is_none (RT := Scenario.rt_parse)
           (JStr "POL999") (SText "POL999") Scenario.parse_world1
           eq_refl (or_intror Hno)).
Defined.

Lemma lookup_is_stable_witness :
  sqlite_bind 0 (JStr "POL123")
  = inr (SText "POL123") /\
  (exists r, In r (policies Scenario.parse_world1) /\
             matches Scenario.rt_parse (SText "POL123") r = true) /\
  fst (get_policy_by_number (RT := Scenario.rt_parse) (JStr "POL123")
         (snd (dispatch (RT := Scenario.rt_parse) PolicyParse
                        Scenario.parse_request Scenario.parse_world1)))
  = fst (get_policy_by_number (RT := Scenario.rt_parse) (JStr "POL123")
                              Scenario.parse_world1).
Proof.
  assert (Hin : exists r, In r (policies Scenario.parse_world1) /\
                          matches Scenario.rt_parse (SText "POL123") r = true).
  { eexists. split; [ left; vm_compute; reflexivity | reflexivity ]. }
  split; [ reflexivity | ]. split; [ exact Hin | ].
  exact (lookup_is_stable (RT := Scenario.rt_parse) PolicyParse
           Scenario.parse_request (JStr "POL123") (SText "POL123")
           Scenario.parse_world1 eq_refl Hin).
Defined.

(** The scenario: the parser answers [[1]]. *)
Lemma parse_raises_on_non_object_document_witness :
  let w1 := logged Sim.world0
              (LlmCall (parser_messages (request_text Scenario.parse_request))
                       float_zero 600) in
  (exists kvs, py_or Scenario.parse_request (JObj []) = JObj kvs) /\
  truthy (request_text Scenario.parse_request) = true /\
  extract_policy (RT := Scenario2.rt_parse_array)
                 (request_text Scenario.parse_request) Sim.world0
  = (inr (inr (JArr [JInt 1])), w1) /\
  parse_policy (RT := Scenario2.rt_parse_array) Scenario.parse_request
               Sim.world0
  = (inl (AttributeError (JArr [JInt 1]) "get"), drawn w1).
Proof.
  intros w1.
  assert (Hb : exists kvs, py_or Scenario.parse_request (JObj []) = JObj kvs)
    by (eexists; reflexivity).
  assert (Hx : extract_policy (RT := Scenario2.rt_parse_array)
                 (request_text Scenario.parse_request) Sim.world0
               = (inr (inr (JArr [JInt 1])), w1))
    by (vm_compute; reflexivity).
  split; [ exact Hb | ]. split; [ reflexivity | ]. split; [ exact Hx | ].
  apply (parse_raises_on_non_object_document (RT := Scenario2.rt_parse_array)
           _ _ _ _ Hb eq_refl Hx).
  intros kvs. discriminate.
Defined.

(** A [str] that holds a lone surrogate cannot be encoded for SQLite, the
    code point before the range can: [save_policy] raises
    UnicodeEncodeError on a customer name that is one and stores nothing,
    and the agent endpoint raises it while logging such a message, before
    any model call. *)
Example surrogate_is_refused :
  bindable (JStr Scenario2.lone_surrogate) = false /\
  bindable (JStr Scenario2.before_surrogates) = true /\
  (exists msg w',
     save_policy (RT := Scenario.rt_idle) (JObj Scenario2.surrogate_name_doc)
                 Sim.world0
     = (inl (Exn "UnicodeEncodeError" msg), w') /\
     policies w' = []) /\
  (exists msg w',
     agent_message (RT := Scenario.rt_idle) Scenario2.surrogate_message
                   Sim.world0
     = (inl (Exn "UnicodeEncodeError" msg), w') /\
     conversations w' = [] /\ llm_calls w' = []).
Proof.
  split; [ reflexivity | ]. split; [ reflexivity | ].
  split; eexists _, _; (split; [ vm_compute; reflexivity | ]);
    repeat split.
Qed.

(* ===================================================================== *)
(** ** The conversation log *)
(* ===================================================================== *)

Lemma existsb_cid_false cid (rows : list conversation_row) :
  existsb (fun r => (c_id r =? cid)%string) rows = false ->
  ~ In cid (map c_id rows).
Proof.
  intros H Hin. apply in_map_iff in Hin. destruct Hin as (r & Hr & Hin).
  assert (existsb (fun r => (c_id r =? cid)%string) rows = true).
  { apply existsb_exists. exists r. split; [ exact Hin | ].
    rewrite Hr. apply String.eqb_refl. }
  congruence.
Qed.

Lemma existsb_cid_fresh cid (rows : list conversation_row) :
  ~ In cid (map c_id rows) ->
  existsb (fun r => (c_id r =? cid)%string) rows = false.
Proof.
  intros H. destruct (existsb _ rows) eqn:E; [ | reflexivity ].
  exfalso. apply H. apply existsb_exists in E. destruct E as (r & Hin & Heq).
  apply String.eqb_eq in Heq. subst cid. apply in_map. exact Hin.
Qed.

Section Log.

Context {RT : Runtime}.

(** What a [log_conversation] that returned has done. *)
Lemma log_conversation_inr sid role m w u w' :
  log_conversation sid role m w = (inr u, w') ->
  bindable sid = true /\ bindable m = true /\
  ~ In (uuid4 (uuid_count w)) (map c_id (conversations w)) /\
  w' = turn_logged RT w (bound sid) role (bound m).
Proof.
  unfold log_conversation. intros H.
  bind_inv H. bind_inv H. bind_inv H. bind_inv H.
  destruct (sqlite_bind_inr_bindable _ _ _ Ha) as [B1 ->].
  destruct (sqlite_bind_inr_bindable _ _ _ Ha0) as [B2 ->].
  unfold insert_conversation in H. cbn [conversations c_id] in H.
  destruct (existsb _ (conversations w)) eqn:E; [ discriminate H | ].
  inversion H; subst. repeat split; auto.
  apply existsb_cid_false. exact E.
Qed.

(** When [log_conversation] goes through. *)
Lemma log_conversation_ok sid role m w :
  bindable sid = true -> bindable m = true ->
  ~ In (uuid4 (uuid_count w)) (map c_id (conversations w)) ->
  log_conversation sid role m w
  = (inr tt, turn_logged RT w (bound sid) role (bound m)).
Proof.
  intros B1 B2 Hfresh.
  unfold log_conversation, insert_conversation, uuid4_str, utcnow_isoformat.
  rewrite (sqlite_bind_bindable 1 _ B1), (sqlite_bind_bindable 3 _ B2).
  unfold lift, bind, ret. cbn [conversations c_id].
  rewrite (existsb_cid_fresh _ _ Hfresh). reflexivity.
Qed.

(** The handler up to the turn, on a request it accepts. *)
Lemma agent_message_200_steps req w resp w' :
  agent_message req w = (inr resp, w') -> status resp = 200 ->
  exists policy w1 w2,
    log_conversation (session_of RT req w) "user"
                     (request_field req "message" (JStr ""))
                     (after_session req w)
    = (inr tt, w1) /\
    same_tables w1 w2 /\
    agent_turn (session_of RT req w) policy
               (request_field req "language" (JStr "en"))
               (request_field req "message" (JStr "")) w2
    = (inr resp, w').
Proof.
  unfold agent_message, session_of, after_session, request_field.
  intros H Hs.
  destruct (py_or req (JObj [])) as [ | b | z | x | s | l | kvs ];
    try (cbn in H; discriminate H).
  bind_inv H. bind_inv H.
  assert (a = py_or (dict_get kvs "session_id" JNull) (JStr (uuid4 (uuid_count w)))
          /\ w0 = (if truthy (dict_get kvs "session_id" JNull)
                   then w else drawn w)) as [-> ->].
  { unfold py_or_else, py_or in *.
    destruct (truthy (dict_get kvs "session_id" JNull)).
    - inversion Ha; auto.
    - bind_inv Ha. inversion Ha; auto. }
  clear Ha. bind_inv H. bind_inv H. bind_inv H.
  destruct (truthy (dict_get kvs "message" (JStr ""))) eqn:Hmsg; cbn [negb] in H.
  - bind_inv H. bind_inv H. destruct a.
    exists a0, w0, w1. split; [ exact Ha | ]. split; [ | exact H ].
    refine (moves_run same_tables _ _ _ _ _ Ha0).
    destruct (truthy (dict_get kvs "policy_number" JNull)).
    + apply same_get_policy_by_number.
    + apply (moves_ret _ same_tables_refl).
  - inversion H; subst. cbn in Hs. discriminate Hs.
Qed.

(** The turn, from its end. *)
Lemma finish_turn_200_steps sid policy D w resp w' :
  finish_turn sid policy D w = (inr resp, w') ->
  exists w1,
    same_tables w w1 /\
    log_conversation sid "agent" (response_reply (body resp)) w1 = (inr tt, w').
Proof.
  unfold finish_turn. intros H. bind_inv H.
  pose proof (moves_run same_tables _ _ _ _ (same_resolve_payment _ _) Ha) as S.
  destruct (resolve_payment_inr _ _ _ _ _ Ha) as (kvs & -> & Hout).
  assert (exists kvs', a = JObj kvs') as [kvs' ->].
  { destruct Hout as [(_ & -> & _) | (_ & -> & _)]; eauto. }
  bind_inv H. bind_inv H. destruct a. inversion H; subst.
  exists w0. split; [ exact S | exact Ha0 ].
Qed.

(** X9.  A turn that is answered leaves exactly two rows in the
    conversation log, in this order: the user's message, then the agent's
    reply as it is in the response (the empty string when the response has
    no reply key).  Both carry the same session id: the request's own when
    it has one, else one uuid generated for this request.  Their row
    identifiers differ. *)
Theorem answered_turn_logs_two_rows req w resp w' :
  agent_message req w = (inr resp, w') -> status resp = 200 ->
  exists c1 t1 c2 t2,
    let sid := bound (session_of RT req w) in
    conversations w'
    = conversations w
      ++ [ConversationRow c1 sid "user"
                          (bound (request_field req "message" (JStr ""))) t1;
          ConversationRow c2 sid "agent"
                          (bound (response_reply (body resp))) t2] /\
    c1 <> c2.
Proof.
  intros H Hs.
  destruct (agent_message_200_steps _ _ _ _ H Hs)
    as (policy & w1 & w2 & Hlog1 & [_ S12] & Hturn).
  destruct (log_conversation_inr _ _ _ _ _ _ Hlog1) as (_ & _ & _ & ->).
  destruct (agent_turn_unrolled (session_of RT req w) policy
              (request_field req "language" (JStr "en"))
              (request_field req "message" (JStr "")) w2)
    as (nlu & sent & D & _ & _ & _ & Hun).
  cbn zeta in Hun. rewrite Hun in Hturn. clear Hun.
  destruct (finish_turn_200_steps _ _ _ _ _ _ Hturn) as (w3 & [_ S3] & Hlog2).
  destruct (log_conversation_inr _ _ _ _ _ _ Hlog2) as (_ & _ & Hfresh & ->).
  cbn [logged conversations] in S3.
  exists (uuid4 (uuid_count (after_session req w))),
         (utcnow (clock_count (after_session req w))),
         (uuid4 (uuid_count w3)), (utcnow (clock_count w3)).
  cbn zeta. rewrite S3, S12 in Hfresh.
  assert (Hcw : conversations (after_session req w) = conversations w).
  { unfold after_session. destruct (truthy _); reflexivity. }
  split.
  - unfold turn_logged, with_turn. cbn [conversations ticked drawn].
    rewrite S3, S12. unfold turn_logged, with_turn.
    cbn [conversations ticked drawn]. rewrite Hcw, <- app_assoc. reflexivity.
  - intros Heq. apply Hfresh. unfold turn_logged, with_turn.
    cbn [conversations ticked drawn]. rewrite map_app, in_app_iff. right.
    cbn. left. exact Heq.
Qed.

End Log.

(** The scenario: intent and sentiment fail, the decision offers a renewal;
    the request has no session id. *)
Lemma answered_turn_logs_two_rows_witness :
  let run := agent_message (RT := Scenario.rt_degraded) Scenario.hello
                           Sim.world0 in
  run = (inr (jsonify Scenario.renewal_decision), snd run) /\
  status (jsonify Scenario.renewal_decision) = 200 /\
  map c_role (conversations (snd run)) = ["user"; "agent"]%string /\
  map c_session_id (conversations (snd run))
  = [SText (Sim.uuid_of 0); SText (Sim.uuid_of 0)] /\
  map c_message (conversations (snd run))
  = [SText "hi"; SText "Your policy expires soon. Renew now?"].
Proof.
  intros run.
  assert (H : agent_message (RT := Scenario.rt_degraded) Scenario.hello
                            Sim.world0
              = (inr (jsonify Scenario.renewal_decision), snd run))
    by (vm_compute; reflexivity).
  split; [ exact H | ]. split; [ reflexivity | ].
  destruct (answered_turn_logs_two_rows (RT := Scenario.rt_degraded) _ _ _ _
                                        H eq_refl)
    as (c1 & t1 & c2 & t2 & Hrows & _).
  cbn zeta in Hrows. rewrite Hrows. repeat split.
Defined.

(* ===================================================================== *)
(** ** Requests that are refused, and the two stubs *)
(* ===================================================================== *)

Section Refusals.

Context {RT : Runtime}.

(** A classification endpoint, computed on a request that is a dict. *)
Lemma single_attempt_run (msgs : list message) (n : Z) (label : string) w :
  bind (try_except (parsed <- llm_json msgs n ;; ret (inr parsed))
          (fun e => ret (inl (jsonify_with
                                (JObj [("error", JStr label);
                                       ("details", JStr (str_exn e))]) 500))))
       (fun r : response + json =>
          match r with
          | inl resp => ret resp
          | inr parsed => ret (jsonify parsed)
          end) w
  = match llm_json msgs n w with
    | (inr doc, w1) => (inr (jsonify doc), w1)
    | (inl e, w1) => (inr (jsonify_with (error_body label (str_exn e)) 500), w1)
    end.
Proof.
  unfold bind, try_except, ret.
  destruct (call_llm msgs float_zero n w) as [[e | out] w1] eqn:E;
    unfold llm_json, bind; rewrite E; [ reflexivity | ].
  destruct (lift (json_loads out) w1) as [[e | doc] w2]; reflexivity.
Qed.

Lemma nlu_intent_run (kvs : list (string * json)) (w : world) :
  nlu_intent (JObj kvs) w
  = (if truthy (dict_get kvs "text" (JStr ""))
     then match llm_json [Message "system" (JStr SYSTEM_NLU_PROMPT);
                          Message "user" (dict_get kvs "text" (JStr ""))]
                         200 w with
          | (inr doc, w1) => (inr (jsonify doc), w1)
          | (inl e, w1) =>
              (inr (jsonify_with (error_body "NLU LLM error" (str_exn e)) 500), w1)
          end
     else (inr (required "text"), w)).
Proof.
  unfold nlu_intent.
  replace (py_or (JObj kvs) (JObj [])) with (JObj kvs)
    by (destruct kvs; reflexivity).
  cbn [py_get]. unfold bind at 1. unfold ret at 1.
  destruct (truthy (dict_get kvs "text" (JStr ""))); cbn [negb];
    [ | reflexivity ].
  apply single_attempt_run.
Qed.

Lemma nlu_sentiment_run (kvs : list (string * json)) (w : world) :
  nlu_sentiment (JObj kvs) w
  = (if truthy (dict_get kvs "text" (JStr ""))
     then match llm_json [Message "system" (JStr SYSTEM_SENTIMENT_PROMPT);
                          Message "user" (dict_get kvs "text" (JStr ""))]
                         100 w with
          | (inr doc, w1) => (inr (jsonify doc), w1)
          | (inl e, w1) =>
              (inr (jsonify_with (error_body "Sentiment LLM error" (str_exn e))
                                 500), w1)
          end
     else (inr (required "text"), w)).
Proof.
  unfold nlu_sentiment.
  replace (py_or (JObj kvs) (JObj [])) with (JObj kvs)
    by (destruct kvs; reflexivity).
  cbn [py_get]. unfold bind at 1. unfold ret at 1.
  destruct (truthy (dict_get kvs "text" (JStr ""))); cbn [negb];
    [ | reflexivity ].
  apply single_attempt_run.
Qed.

(** X10.  The intent and sentiment endpoints never raise on a request that
    is a JSON object: they answer 400 without calling the model when [text]
    is falsy, and otherwise make one call and answer either 200 with the
    document the model gave, exactly as parsed and with no check of its
    keys or values, or 500 with the error of that one attempt. *)
Theorem classification_endpoints_answer (kvs : list (string * json)) (w : world) :
  let text := dict_get kvs "text" (JStr "") in
  nlu_intent (JObj kvs) w
  = (if truthy text
     then match llm_json [Message "system" (JStr SYSTEM_NLU_PROMPT);
                          Message "user" text] 200 w with
          | (inr doc, w1) => (inr (jsonify doc), w1)
          | (inl e, w1) =>
              (inr (jsonify_with (error_body "NLU LLM error" (str_exn e)) 500), w1)
          end
     else (inr (required "text"), w))
  /\
  nlu_sentiment (JObj kvs) w
  = (if truthy text
     then match llm_json [Message "system" (JStr SYSTEM_SENTIMENT_PROMPT);
                          Message "user" text] 100 w with
          | (inr doc, w1) => (inr (jsonify doc), w1)
          | (inl e, w1) =>
              (inr (jsonify_with (error_body "Sentiment LLM error" (str_exn e))
                                 500), w1)
          end
     else (inr (required "text"), w)).
Proof.
  intros text. split; [ apply nlu_intent_run | apply nlu_sentiment_run ].
Qed.

(** X11.  POST /v1/agent/message with a falsy [message] (absent, null, empty)
    is refused with 400 "message required" before anything is logged and
    before any model call; the only trace it can leave is one uuid drawn for
    a session id the request did not carry. *)
Theorem agent_message_without_message req w :
  (exists kvs, py_or req (JObj []) = JObj kvs) ->
  truthy (request_field req "message" (JStr "")) = false ->
  agent_message req w = (inr (required "message"), after_session req w) /\
  conversations (after_session req w) = conversations w /\
  policies (after_session req w) = policies w /\
  llm_calls (after_session req w) = llm_calls w.
Proof.
  intros [kvs Hb] Hm. unfold agent_message, after_session, request_field in *.
  rewrite Hb in *. cbn [py_get].
  unfold bind at 1. unfold ret at 1. unfold bind at 1.
  unfold py_or_else.
  destruct (truthy (dict_get kvs "session_id" JNull)).
  - unfold ret at 1. unfold bind at 1. unfold ret at 1.
    unfold bind at 1. unfold ret at 1. unfold bind at 1. unfold ret at 1.
    rewrite Hm. cbn [negb]. repeat split.
  - unfold bind at 1. unfold uuid4_str at 1. unfold ret at 1.
    unfold bind at 1. unfold ret at 1.
    unfold bind at 1. unfold ret at 1. unfold bind at 1. unfold ret at 1.
    rewrite Hm. cbn [negb]. repeat split.
Qed.

(** X12.  POST /v1/notify/sms on a request that is a JSON object always
    answers: 400 "to and text required" when [to] or [text] is falsy, and
    otherwise 200 with status "sent" and an id made of [msg_] and the first
    8 characters of a fresh uuid.  Nothing is stored and no model call is
    made. *)
Theorem notify_sms_answers (kvs : list (string * json)) (w : world) :
  let to := dict_get kvs "to" JNull in
  let text := dict_get kvs "text" JNull in
  notify_sms (JObj kvs) w
  = (if truthy to && truthy text
     then (inr (jsonify
                  (JObj [("status", JStr "sent");
                         ("id", JStr ("msg_" ++ substring 0 8
                                                  (uuid4 (uuid_count w)))%string)])),
           drawn w)
     else (inr (required "to and text"), w))
  /\ same_tables w (snd (notify_sms (JObj kvs) w))
  /\ llm_calls (snd (notify_sms (JObj kvs) w)) = llm_calls w.
Proof.
  intros to text. split; [ | split ].
  - unfold notify_sms.
    replace (py_or (JObj kvs) (JObj [])) with (JObj kvs)
      by (destruct kvs; reflexivity).
    cbn [py_get]. unfold bind at 1. unfold ret at 1.
    unfold bind at 1. unfold ret at 1. fold to text.
    destruct (truthy to); destruct (truthy text); reflexivity.
  - apply same_notify_sms.
  - apply quiet_notify_sms.
Qed.

End Refusals.

(** The scenario: a request with no field at all. *)
Lemma agent_message_without_message_witness :
  (exists kvs, py_or (JObj []) (JObj []) = JObj kvs) /\
  truthy (request_field (JObj []) "message" (JStr "")) = false /\
  agent_message (RT := Scenario.rt_idle) (JObj []) Sim.world0
  = (inr (required "message"), drawn Sim.world0).
Proof.
  assert (Hb : exists kvs, py_or (JObj []) (JObj []) = JObj kvs)
    by (eexists; reflexivity).
  split; [ exact Hb | ]. split; [ reflexivity | ].
  exact (proj1 (agent_message_without_message (RT := Scenario.rt_idle)
                  (JObj []) Sim.world0 Hb eq_refl)).
Defined.

(* ===================================================================== *)
(** ** When the model or the request misbehaves *)
(* ===================================================================== *)

Section Failures.

Context {RT : Runtime}.

(** X13.  The corrective retry of the parser needs a text that is a string.
    When the request's text is another truthy value (a number, a list) and
    the first attempt fails, building the retry message raises a TypeError
    inside the inner [try]: the answer is a 500 whose details are that
    TypeError, not the model's error, and no second call is made. *)
Theorem retry_is_skipped_for_non_string_text text w e w1 :
  (forall s, text <> JStr s) ->
  llm_json (parser_messages text) 600 w = (inl e, w1) ->
  extract_policy text w
  = (inr (inl (jsonify_with
                 (error_body "LLM parsing failed"
                    ("can only concatenate str (not " ++ dquote
                     ++ py_type_name text ++ dquote ++ ") to str")%string)
                 500)),
     w1) /\
  llm_calls w1 = llm_calls w ++ [LlmCall (parser_messages text) float_zero 600].
Proof.
  intros Hns H. split.
  - unfold extract_policy.
    rewrite (try_except_caught _ _ _ e w1) by (apply bind_fail; exact H).
    destruct text; try reflexivity. exfalso. eapply Hns. reflexivity.
  - rewrite (llm_json_result _ _ _ _ _ H). reflexivity.
Qed.

(** Without a key, an attempt fails before the API is asked. *)
Lemma llm_json_without_key msgs n w :
  api_key w = None ->
  llm_json msgs n w = (inl no_key, logged w (LlmCall msgs float_zero n)).
Proof.
  intros Hk. unfold llm_json, bind, call_llm, logged. rewrite Hk. reflexivity.
Qed.

(** X14.  With no OPENAI_API_KEY configured, whatever the model API would
    have answered: the intent endpoint answers 500 with the details
    "OPENAI_API_KEY not set in environment."; the parse endpoint, on a
    string text, goes through both attempts and answers 500 with the same
    details, storing nothing; and the agent's decision step yields the
    fallback decision with that message as its reason. *)
Theorem endpoints_without_api_key (kvs : list (string * json)) (text : string)
        (language : json) (prompt : string) (w : world) :
  api_key w = None ->
  (truthy (dict_get kvs "text" (JStr "")) = true ->
   fst (nlu_intent (JObj kvs) w)
   = inr (jsonify_with (error_body "NLU LLM error" (exn_msg no_key)) 500)) /\
  (text <> ""%string ->
   fst (parse_policy (JObj [("text", JStr text)]) w)
   = inr (jsonify_with (error_body "LLM parsing failed" (exn_msg no_key)) 500) /\
   policies (snd (parse_policy (JObj [("text", JStr text)]) w)) = policies w /\
   length (llm_calls (snd (parse_policy (JObj [("text", JStr text)]) w)))
   = (length (llm_calls w) + 2)%nat) /\
  fst (agent_decision language prompt w)
  = inr (fallback_decision language no_key).
Proof.
  intros Hk. split; [ | split ].
  - intros Ht.
    rewrite nlu_intent_run, Ht, (llm_json_without_key _ _ _ Hk).
    reflexivity.
  - intros Hne.
    assert (Ht : truthy (request_text (JObj [("text", JStr text)])) = true).
    { unfold request_text, py_or. cbn.
      destruct (text =? "")%string eqn:E; [ | cbn; rewrite E; reflexivity ].
      apply String.eqb_eq in E. contradiction. }
    assert (Hrt : request_text (JObj [("text", JStr text)]) = JStr text).
    { unfold request_text, py_or in *. cbn in *.
      destruct (negb (text =? "")%string); [ reflexivity | discriminate Ht ]. }
    assert (Hb : exists k, py_or (JObj [("text", JStr text)]) (JObj []) = JObj k)
      by (eexists; reflexivity).
    rewrite (parse_policy_run _ _ Hb Ht), Hrt.
    rewrite (bind_step _ _ w
               (inl (jsonify_with
                       (error_body "LLM parsing failed" (exn_msg no_key)) 500))
               (logged (logged w (LlmCall (parser_messages (JStr text))
                                          float_zero 600))
                       (LlmCall (parser_messages
                                   (JStr (retry_prefix no_key ++ text)%string))
                                float_zero 600))).
    + unfold ret. cbn [fst snd logged policies llm_calls].
      repeat split. rewrite <- app_assoc, length_app. reflexivity.
    + rewrite (extract_policy_retry _ _ _ _ (llm_json_without_key _ _ _ Hk)).
      rewrite llm_json_without_key by exact Hk. reflexivity.
  - unfold agent_decision, agent_attempt.
    rewrite (try_except_caught _ _ _ _ _ (llm_json_without_key _ _ _ Hk)).
    reflexivity.
Qed.

(** X15.  A failure of the decision step never fails the turn: when the
    decision attempt raises or its output does not parse, and the session
    id is one sqlite3 can bind and the row identifier drawn is new, the turn
    answers 200 with the fallback decision (the apology, the caller's
    language, [escalate_human], the error as reason) and logs the apology as
    the agent's reply.  No payment is synthesised. *)
Theorem turn_falls_back_when_decision_fails
        sid policy language user_text w nlu sent w1 w2 e w3 :
  intent_or_default user_text w = (inr nlu, w1) ->
  sentiment_or_default user_text w1 = (inr sent, w2) ->
  agent_attempt (agent_user_prompt user_text (policy_context policy)
                                   nlu sent language) w2
  = (inl e, w3) ->
  bindable sid = true ->
  ~ In (uuid4 (uuid_count w)) (map c_id (conversations w)) ->
  agent_turn sid policy language user_text w
  = (inr (jsonify (fallback_decision language e)),
     turn_logged RT w3 (bound sid) "agent" (SText fallback_reply)).
Proof.
  intros H1 H2 H3 Hsid Hfresh.
  assert (E1 : w1 = logged w (intent_call user_text)).
  { destruct (intent_or_default_total user_text w) as (n & Hn & _).
    rewrite H1 in Hn. inversion Hn; reflexivity. }
  assert (E2 : w2 = logged w1 (sentiment_call user_text)).
  { destruct (sentiment_or_default_total user_text w1) as (n & Hn & _).
    rewrite H2 in Hn. inversion Hn; reflexivity. }
  pose proof (llm_json_result _ _ _ _ _ H3) as E3.
  unfold agent_turn.
  rewrite (bind_step _ _ _ _ _ H1), (bind_step _ _ _ _ _ H2).
  unfold agent_decision at 1.
  rewrite (bind_step _ _ w2 (fallback_decision language e) w3)
    by (rewrite (try_except_caught _ _ _ _ _ H3); reflexivity).
  unfold finish_turn, resolve_payment, fallback_decision.
  cbn [py_get]. unfold bind at 1. unfold bind at 1. unfold ret at 1.
  cbn -[log_conversation fallback_reply].
  unfold bind at 1. unfold ret at 1.
  rewrite log_conversation_ok.
  - reflexivity.
  - exact Hsid.
  - reflexivity.
  - subst w3 w2 w1. cbn [logged uuid_count conversations]. exact Hfresh.
Qed.

End Failures.

(** The scenario: the text is the number 5 and the first answer is prose. *)
Lemma retry_is_skipped_for_non_string_text_witness :
  let w1 := logged Sim.world0
              (LlmCall (parser_messages (JInt 5)) float_zero 600) in
  (forall s, JInt 5 <> JStr s) /\
  llm_json (RT := Scenario.rt_retry) (parser_messages (JInt 5)) 600 Sim.world0
  = (inl (Exn "JSONDecodeError" "Expecting value"), w1) /\
  parse_policy (RT := Scenario.rt_retry) Scenario2.numeric_text_request
               Sim.world0
  = (inr (jsonify_with
            (error_body "LLM parsing failed"
               ("can only concatenate str (not " ++ dquote ++ "int" ++ dquote
                ++ ") to str")%string) 500),
     w1).
Proof.
  intros w1.
  assert (Hns : forall s, JInt 5 <> JStr s) by (intros s; discriminate).
  assert (H : llm_json (RT := Scenario.rt_retry) (parser_messages (JInt 5))
                       600 Sim.world0
              = (inl (Exn "JSONDecodeError" "Expecting value"), w1))
    by (vm_compute; reflexivity).
  split; [ exact Hns | ]. split; [ exact H | ].
  destruct (retry_is_skipped_for_non_string_text (RT := Scenario.rt_retry)
              _ _ _ _ Hns H) as [Hx _].
  assert (Hb : exists k, py_or Scenario2.numeric_text_request (JObj []) = JObj k)
    by (eexists; reflexivity).
  rewrite (parse_policy_run (RT := Scenario.rt_retry)
             Scenario2.numeric_text_request Sim.world0 Hb eq_refl).
  change (request_text Scenario2.numeric_text_request) with (JInt 5).
  rewrite (bind_step _ _ _ _ _ Hx). reflexivity.
Defined.

(** The scenario: no key; the runtime would have answered every call. *)
Lemma endpoints_without_api_key_witness :
  api_key Scenario2.world_no_key = None /\
  fst (nlu_intent (RT := Scenario.rt_intent_garbled) Scenario.intent_request
                  Scenario2.world_no_key)
  = inr (jsonify_with
           (error_body "NLU LLM error" "OPENAI_API_KEY not set in environment.")
           500) /\
  fst (parse_policy (RT := Scenario.rt_parse) (JObj [("text", JStr "POL123")])
                    Scenario2.world_no_key)
  = inr (jsonify_with
           (error_body "LLM parsing failed"
                       "OPENAI_API_KEY not set in environment.") 500).
Proof.
  split; [ reflexivity | ]. split.
  - destruct (endpoints_without_api_key (RT := Scenario.rt_intent_garbled)
                [("text", JStr "I will renew today")] "POL123" (JStr "en") ""
                Scenario2.world_no_key eq_refl) as (Hi & _).
    exact (Hi eq_refl).
  - destruct (endpoints_without_api_key (RT := Scenario.rt_parse)
                [] "POL123" (JStr "en") "" Scenario2.world_no_key eq_refl)
      as (_ & Hp & _).
    destruct (Hp ltac:(discriminate)) as [Hr _]. exact Hr.
Defined.

(** The scenario: no call gets through. *)
Lemma turn_falls_back_when_decision_fails_witness :
  let w1 := logged Sim.world0 (intent_call (JStr "hi")) in
  let w2 := logged w1 (sentiment_call (JStr "hi")) in
  let prompt := agent_user_prompt (RT := Scenario.rt_idle) (JStr "hi")
                  (policy_context (RT := Scenario.rt_idle) JNull)
                  default_nlu default_sent (JStr "en") in
  let w3 := logged w2 (decision_call prompt) in
  intent_or_default (RT := Scenario.rt_idle) (JStr "hi") Sim.world0
  = (inr default_nlu, w1) /\
  sentiment_or_default (RT := Scenario.rt_idle) (JStr "hi") w1
  = (inr default_sent, w2) /\
  agent_attempt (RT := Scenario.rt_idle) prompt w2 = (inl Sim.api_error, w3) /\
  bindable (JStr "s1") = true /\
  ~ In (Sim.uuid_of 0) (map c_id (conversations Sim.world0)) /\
  agent_turn (RT := Scenario.rt_idle) (JStr "s1") JNull (JStr "en") (JStr "hi")
             Sim.world0
  = (inr (jsonify (fallback_decision (JStr "en") Sim.api_error)),
     turn_logged Scenario.rt_idle w3 (SText "s1") "agent" (SText fallback_reply)).
Proof.
  intros w1 w2 prompt w3.
  assert (H1 : intent_or_default (RT := Scenario.rt_idle) (JStr "hi") Sim.world0
               = (inr default_nlu, w1)) by (vm_compute; reflexivity).
  assert (H2 : sentiment_or_default (RT := Scenario.rt_idle) (JStr "hi") w1
               = (inr default_sent, w2)) by (vm_compute; reflexivity).
  assert (H3 : agent_attempt (RT := Scenario.rt_idle) prompt w2
               = (inl Sim.api_error, w3)) by (vm_compute; reflexivity).
  assert (Hf : ~ In (Sim.uuid_of 0) (map c_id (conversations Sim.world0)))
    by (intros []).
  repeat (split; [ first [ exact H1 | exact H2 | exact H3 | exact Hf
                         | reflexivity ] | ]).
  exact (turn_falls_back_when_decision_fails (RT := Scenario.rt_idle)
           (JStr "s1") JNull (JStr "en") (JStr "hi") Sim.world0
           default_nlu default_sent w1 w2 Sim.api_error w3
           H1 H2 H3 eq_refl Hf).
Defined.

(* ===================================================================== *)
(** ** The policy context of a turn *)
(* ===================================================================== *)

Section PolicyContext.

Context {RT : Runtime}.

(** X16.  A policy number that no stored row carries is not an error for
    the agent endpoint: once the user message is logged, the turn runs with
    no policy at all, exactly as if the request had carried no
    policy_number, so the prompt's policy context is the text [{}]. *)
Theorem unknown_policy_number_means_no_context req w pn v :
  (exists kvs, py_or req (JObj []) = JObj kvs) ->
  truthy (request_field req "message" (JStr "")) = true ->
  bindable (request_field req "message" (JStr "")) = true ->
  bindable (session_of RT req w) = true ->
  ~ In (uuid4 (uuid_count (after_session req w)))
       (map c_id (conversations w)) ->
  request_field req "policy_number" JNull = pn ->
  sqlite_bind 0 pn = inr v ->
  (forall r, In r (policies w) -> matches RT v r = false) ->
  agent_message req w
  = agent_turn (session_of RT req w) JNull
               (request_field req "language" (JStr "en"))
               (request_field req "message" (JStr ""))
               (turn_logged RT (after_session req w)
                            (bound (session_of RT req w)) "user"
                            (bound (request_field req "message" (JStr ""))))
  /\ policy_context JNull = "{}"%string.
Proof.
  intros [kvs Hb] Hm Bm Bs Hfresh Hpn Hbind Hno.
  split; [ | reflexivity ].
  unfold agent_message, session_of, after_session, request_field in *.
  rewrite Hb in *. cbn [py_get].
  set (sid := py_or (dict_get kvs "session_id" JNull)
                    (JStr (uuid4 (uuid_count w)))) in *.
  set (w0 := if truthy (dict_get kvs "session_id" JNull) then w else drawn w) in *.
  unfold bind at 1. unfold ret at 1.
  rewrite (bind_step _ _ w sid w0).
  2:{ unfold py_or_else, sid, w0, py_or.
      destruct (truthy (dict_get kvs "session_id" JNull)); reflexivity. }
  unfold bind at 1. unfold ret at 1. unfold bind at 1. unfold ret at 1.
  unfold bind at 1. unfold ret at 1.
  rewrite Hm. cbn [negb].
  assert (Hcw : conversations w0 = conversations w)
    by (unfold w0; destruct (truthy (dict_get kvs "session_id" JNull));
        reflexivity).
  assert (Hpw : policies w0 = policies w)
    by (unfold w0; destruct (truthy (dict_get kvs "session_id" JNull));
        reflexivity).
  rewrite (bind_step _ _ _ tt _
             (log_conversation_ok _ "user" _ w0 Bs Bm
                ltac:(rewrite Hcw; exact Hfresh))).
  rewrite Hpn.
  rewrite (bind_step _ _ _ JNull
             (turn_logged RT w0 (bound sid) "user"
                (bound (dict_get kvs "message" (JStr ""))))).
  - reflexivity.
  - destruct (truthy pn); [ | reflexivity ].
    rewrite (get_policy_by_number_run _ _ _ Hbind).
    unfold turn_logged, with_turn. cbn [policies ticked drawn]. rewrite Hpw.
    destruct (find _ (policies w)) as [r | ] eqn:E; [ | reflexivity ].
    apply find_some in E. destruct E as [Hin Hmt].
    rewrite (Hno r Hin) in Hmt. discriminate Hmt.
Qed.

End PolicyContext.

(** The scenario: the stored policy is POL123, the request asks for POL999. *)
Lemma unknown_policy_number_means_no_context_witness :
  let req := JObj [("session_id", JStr "s1");
                   ("policy_number", JStr "POL999");
                   ("message", JStr "hi")] in
  let w := Scenario.parse_world1 in
  (forall r, In r (policies w) ->
             matches Scenario.rt_parse (SText "POL999") r = false) /\
  agent_message (RT := Scenario.rt_parse) req w
  = agent_turn (RT := Scenario.rt_parse) (JStr "s1") JNull (JStr "en") (JStr "hi")
               (turn_logged Scenario.rt_parse w (SText "s1") "user" (SText "hi")).
Proof.
  intros req w.
  assert (Hno : forall r, In r (policies w) ->
                          matches Scenario.rt_parse (SText "POL999") r = false).
  { intros r Hin. vm_compute in Hin.
    destruct Hin as [<- | []]. reflexivity. }
  split; [ exact Hno | ].
  assert (Hb : exists kvs, py_or req (JObj []) = JObj kvs)
    by (eexists; reflexivity).
  exact (proj1 (unknown_policy_number_means_no_context (RT := Scenario.rt_parse)
                  req w (JStr "POL999") (SText "POL999")
                  Hb eq_refl eq_refl eq_refl
                  (fun H : In _ (map c_id []) => match H with end)
                  eq_refl eq_refl Hno)).
Defined.
